(** * The tutor bot of [main.py]: handlers, gate and conversation tables

    A shallow embedding of the Telegram bot in [src/main.py].  Every
    handler of the source is a function from an update to a computation
    over the [World] the handler can see: the Firestore client [db], the
    Gemini model [ai_model], the caller's [context.user_data] and the
    Bot API calls issued so far.  A Python exception is a [Raise] result;
    the world reached when it is raised is kept, as in Python. *)

From Stdlib Require Import ZArith String Ascii List Bool Lia DecimalString.
From stdpp Require Import base option list gmap strings.

Local Open Scope string_scope.
Local Open Scope list_scope.
Local Open Scope Z_scope.

(** ** Python values and exceptions *)

Inductive exn : Type :=
  | AttributeError   (* attribute access on [None] *)
  | ValueError       (* tuple unpacking of a list of the wrong length *)
  | NameError (name : string)
  | NotFound         (* Firestore [update] of a document that does not exist *)
  | ServiceError (msg : string).  (* anything raised by the Gemini SDK *)

Inductive res (A : Type) : Type :=
  | Ok (a : A)
  | Raise (e : exn).
Arguments Ok {A} a.
Arguments Raise {A} e.

(** What a handler returns: [None], an [int], or the [range(n)] object
    that [GET_EMAIL_REG] and [CHECK_EMAIL_LOGIN] are bound to. *)
Inductive pyval : Type :=
  | PNone
  | PInt (z : Z)
  | PRange (n : Z).

#[global] Instance pyval_eq_dec : EqDecision pyval.
Proof. solve_decision. Defined.

(** [str(n)] for an [int]. *)
Definition py_str_int (z : Z) : string := NilZero.string_of_int (Z.to_int z).

(** [s.startswith(p)] *)
Fixpoint startswith (p s : string) : bool :=
  match p, s with
  | EmptyString, _ => true
  | String a p', String b s' => if Ascii.eqb a b then startswith p' s' else false
  | String _ _, EmptyString => false
  end.

(** [s.split(sep, 1)] for a one-character separator: the text before the
    first separator and the text after it, or nothing when there is no
    separator (the list then has one element). *)
Fixpoint split_once (sep : ascii) (s : string) : option (string * string) :=
  match s with
  | EmptyString => None
  | String c s' =>
      if Ascii.eqb c sep then Some (EmptyString, s')
      else match split_once sep s' with
           | Some (a, b) => Some (String c a, b)
           | None => None
           end
  end.

(** Lower-casing of the letters A to Z.  Command names are made of such
    letters, digits and underscores, on which this is [str.lower]. *)
Definition ascii_lower (c : ascii) : ascii :=
  let n := nat_of_ascii c in
  if ((65 <=? n) && (n <=? 90))%nat then ascii_of_nat (n + 32) else c.

Fixpoint lower_ascii (s : string) : string :=
  match s with
  | EmptyString => EmptyString
  | String c s' => String (ascii_lower c) (lower_ascii s')
  end.

(** The double quote character, for the prompts that contain it. *)
Definition dq : string := String (ascii_of_nat 34) EmptyString.
Definition nl : string := String (ascii_of_nat 10) EmptyString.

(** ** Telegram objects *)

Record User : Type := mkUser {
  user_id : Z;
  username : option string
}.

Record Message : Type := mkMessage {
  from_user : User;
  text : string
}.

(** A callback query carries the pressed button's [callback_data] and the
    message the button is attached to (its number among the messages the
    bot sent to this chat). *)
Record CallbackQuery : Type := mkCallbackQuery {
  cq_from_user : User;
  cq_data : string;
  cq_message : nat
}.

Inductive Update : Type :=
  | MessageUpdate (m : Message)
  | CallbackUpdate (q : CallbackQuery).

Record InlineKeyboardButton : Type := mkButton {
  label : string;
  callback_data : string
}.

Inductive Markup : Type :=
  | NoMarkup
  | ReplyKeyboardRemove
  | ReplyKeyboardMarkup (keyboard : list (list string))
  | InlineKeyboardMarkup (keyboard : list (list InlineKeyboardButton)).

(** The Bot API calls a handler makes. *)
Inductive ApiCall : Type :=
  | AnswerCallbackQuery
  | SendMessage (body : string) (reply_markup : Markup)
  | EditMessageText (message : nat) (body : string) (reply_markup : Markup).

(** ** The Firestore collection [users] *)

Record Doc : Type := mkDoc {
  email : string;
  telegram_username : string;
  subjects : list string
}.

(** [firestore.ArrayUnion(xs)]: each given element that the array does
    not hold yet is appended, in order. *)
Definition ArrayUnion (xs : list string) (arr : list string) : list string :=
  fold_left (fun acc x => if bool_decide (x ∈ acc) then acc else acc ++ [x]) xs arr.

(** [firestore.ArrayRemove(xs)]: every occurrence of each given element
    is removed. *)
Definition ArrayRemove (xs : list string) (arr : list string) : list string :=
  filter (fun y => y ∉ xs) arr.

Arguments ArrayUnion : simpl never.
Arguments ArrayRemove : simpl never.

Definition set_subjects (d : Doc) (l : list string) : Doc :=
  {| email := email d; telegram_username := telegram_username d; subjects := l |}.

(** ** The Gemini model *)

Record ChatMsg : Type := mkChatMsg {
  role : string;
  parts : list string
}.

(** A chat session is the history it holds. *)
Definition ChatSession : Type := list ChatMsg.

(** What [send_message_async] returns.  Its [text] is read afterwards,
    and the read raises when the answer holds no text part. *)
Record Response : Type := mkResponse {
  response_text : res string
}.

(** The service is an oracle: what it answers, or which call fails, is
    not the bot's doing.  [generate_content] stands for the call together
    with the read of the answer's text, which the source does in one
    statement.  [send_message] gives the response and the session with
    its history extended. *)
Record GenerativeModel : Type := mkModel {
  generate_content : string -> res string;
  start_chat : list ChatMsg -> res ChatSession;
  send_message : ChatSession -> string -> res (Response * ChatSession)
}.

(** ** [context.user_data] *)

Record Session : Type := mkSession {
  is_logged_in : option bool;
  tutor_subject : option string;
  chat_session : option ChatSession
}.

Definition empty_session : Session :=
  {| is_logged_in := None; tutor_subject := None; chat_session := None |}.

(** Truth value of [user_data.get('is_logged_in')]. *)
Definition truthy (o : option bool) : bool :=
  match o with Some b => b | None => false end.

(** ** The world of a handler *)

Record World : Type := mkWorld {
  db : option (gmap string Doc);
  ai_model : option GenerativeModel;
  user_data : Session;
  outbox : list ApiCall
}.

Definition with_db (w : World) (d : option (gmap string Doc)) : World :=
  {| db := d; ai_model := ai_model w; user_data := user_data w; outbox := outbox w |}.
Definition with_user_data (w : World) (s : Session) : World :=
  {| db := db w; ai_model := ai_model w; user_data := s; outbox := outbox w |}.
Definition with_outbox (w : World) (o : list ApiCall) : World :=
  {| db := db w; ai_model := ai_model w; user_data := user_data w; outbox := o |}.

(** ** The monad of handlers: state that survives an exception *)

Definition M (A : Type) : Type := World -> res A * World.

Definition ret {A} (a : A) : M A := fun w => (Ok a, w).
Definition raise {A} (e : exn) : M A := fun w => (Raise e, w).
Definition bind {A B} (m : M A) (k : A -> M B) : M B :=
  fun w => match m w with
           | (Ok a, w') => k a w'
           | (Raise e, w') => (Raise e, w')
           end.
(** [try: body / except Exception: handler] *)
Definition try_except {A} (body : M A) (handler : exn -> M A) : M A :=
  fun w => match body w with
           | (Ok a, w') => (Ok a, w')
           | (Raise e, w') => handler e w'
           end.
Definition lift {A} (r : res A) : M A := fun w => (r, w).

Declare Scope py_scope.
Delimit Scope py_scope with py.
Notation "'let!' x ':=' m 'in' k" := (bind m (fun x => k))
  (at level 10, x name, m at level 100, k at level 200) : py_scope.
Notation "'do!' m 'in' k" := (bind m (fun _ => k))
  (at level 10, m at level 100, k at level 200) : py_scope.
Local Open Scope py_scope.

Definition get_db : M (option (gmap string Doc)) := fun w => (Ok (db w), w).
Definition put_db (st : gmap string Doc) : M unit := fun w => (Ok tt, with_db w (Some st)).
Definition get_ai : M (option GenerativeModel) := fun w => (Ok (ai_model w), w).
Definition get_user_data : M Session := fun w => (Ok (user_data w), w).
Definition put_user_data (s : Session) : M unit := fun w => (Ok tt, with_user_data w s).
Definition api (c : ApiCall) : M unit := fun w => (Ok tt, with_outbox w (outbox w ++ [c])).

(** [db.collection(...)] and [ai_model.start_chat(...)] on the [None]
    the globals hold when initialisation failed. *)
Definition the_db : M (gmap string Doc) :=
  let! o := get_db in match o with Some st => ret st | None => raise AttributeError end.
Definition the_ai : M GenerativeModel :=
  let! o := get_ai in match o with Some m => ret m | None => raise AttributeError end.

(** [update.message] and [update.callback_query] are [None] on an update
    of the other kind. *)
Definition message_of (u : Update) : M Message :=
  match u with MessageUpdate m => ret m | CallbackUpdate _ => raise AttributeError end.
Definition callback_query_of (u : Update) : M CallbackQuery :=
  match u with CallbackUpdate q => ret q | MessageUpdate _ => raise AttributeError end.

Definition reply_text (body : string) (markup : Markup) : M unit :=
  api (SendMessage body markup).
Definition edit_message_text (q : CallbackQuery) (body : string) (markup : Markup) : M unit :=
  api (EditMessageText (cq_message q) body markup).

Definition Handler : Type := Update -> M pyval.

(** ** Global definitions of [main.py] *)

Definition MAIN_MENU_KEYBOARD : list (list string) :=
  [["🧑‍🏫 Tutor"; "❓ Quiz Me"]; ["📚 My Subjects"; "➕ Add Subject"]].
Definition MAIN_MENU_MARKUP : Markup := ReplyKeyboardMarkup MAIN_MENU_KEYBOARD.

Definition AVAILABLE_SUBJECTS : list string := ["ICT"; "English"; "Math"; "Physics"].
Definition GET_EMAIL_REG : pyval := PRange 1.
Definition CHECK_EMAIL_LOGIN : pyval := PRange 1.
Definition T_SELECT_SUBJECT : pyval := PInt 1.
Definition T_ASK_QUESTION : pyval := PInt 2.
Definition T_TUTORING : pyval := PInt 3.
(** [ConversationHandler.END] *)
Definition END : pyval := PInt (-1).

Definition LOGIN_REQUIRED_TEXT : string :=
  "🔒 This feature requires you to be logged in. Please use /login.".

(** ** The login gate *)

Definition login_required (func : Handler) : Handler := fun update =>
  let! ud := get_user_data in
  if truthy (is_logged_in ud) then func update
  else
    let! m := message_of update in
    do! reply_text LOGIN_REQUIRED_TEXT ReplyKeyboardRemove in
    ret END.

(** ** Quiz generation *)

Definition quiz_prompt (subject_name : string) : string :=
  nl +:+ "    You are an expert IGCSE exam creator. Your single task is to create a quiz." +:+ nl
  +:+ nl +:+ "    Instructions:" +:+ nl
  +:+ "    1. Create a 5-question multiple-choice quiz about the subject: " +:+ dq +:+ subject_name +:+ dq +:+ "." +:+ nl
  +:+ "    2. **CRITICAL**: The questions, terminology, and concepts must strictly adhere to the IGCSE syllabus. Do not include content from A-Levels, AP, or other curricula." +:+ nl
  +:+ "    3. For each question, provide 4 options (A, B, C, D)." +:+ nl
  +:+ "    4. After all 5 questions, create a separate section titled " +:+ dq +:+ "🔑 Answer Key" +:+ dq +:+ "." +:+ nl
  +:+ "    5. In the answer key, list the correct answer and a brief, one-sentence explanation that is relevant to the IGCSE context." +:+ nl
  +:+ "    ".

Definition generate_quiz_from_ai (subject_name : string) : M string :=
  let! o := get_ai in
  match o with
  | None => ret "Sorry, the AI service is currently unavailable."
  | Some model =>
      try_except
        (lift (generate_content model (quiz_prompt subject_name)))
        (fun _ => ret "Sorry, an error occurred while creating your quiz. Please try again later.")
  end.

(** ** Reading the caller's subjects *)

(** [get_user_subjects(user_id)], on the key [str(user_id)]. *)
Definition get_user_subjects (key : string) : M (list string) :=
  let! o := get_db in
  match o with
  | None => ret []
  | Some st =>
      match st !! key with
      | Some d => ret (subjects d)
      | None => ret []
      end
  end.

(** [db.collection('users').document(key).update({'subjects': f})] *)
Definition update_subjects (key : string) (f : list string -> list string) : M unit :=
  let! st := the_db in
  match st !! key with
  | Some d => put_db (<[key := set_subjects d (f (subjects d))]> st)
  | None => raise NotFound
  end.

(** [db.collection('users').where('email', '==', e).limit(1).stream()] *)
Definition where_email (st : gmap string Doc) (e : string) : list (string * Doc) :=
  take 1 (filter (fun kd => email kd.2 = e) (map_to_list st)).

Section Bot.

(** [str.lower] of Python: Unicode lower-casing, which a development over
    byte strings takes as given. *)
Variable str_lower : string -> string.

(** The username of the bot that [TOKEN] belongs to. *)
Variable bot_username : string.

(** ** Core commands *)

Definition start_command : Handler := fun update =>
  let! m := message_of update in
  let user_id := py_str_int (user_id (from_user m)) in
  let! ud := get_user_data in
  if truthy (is_logged_in ud) then
    do! reply_text "Welcome back! What would you like to do?" MAIN_MENU_MARKUP in
    ret PNone
  else
    let! o := get_db in
    match o ≫= (fun st => st !! user_id) with
    | Some _ =>
        do! reply_text "Welcome back! Please use /login with your email to access your account." ReplyKeyboardRemove in
        ret PNone
    | None =>
        do! reply_text "Welcome! Please use /register to create a new account." ReplyKeyboardRemove in
        ret PNone
    end.

Definition logout_command : Handler := fun update =>
  do! put_user_data empty_session in
  let! m := message_of update in
  do! reply_text "You have been successfully logged out. Use /login to access your account again." ReplyKeyboardRemove in
  ret PNone.

(** ** Registration conversation *)

Definition start_registration : Handler := fun update =>
  let! m := message_of update in
  do! reply_text "Let's create your account. Please enter your email address." ReplyKeyboardRemove in
  ret GET_EMAIL_REG.

Definition ALREADY_REGISTERED_TEXT : string :=
  "This email is already registered. Please /login or use a different email.".
Definition REGISTRATION_COMPLETE_TEXT : string :=
  "✅ Registration complete! You can now use /login with your email.".
Definition COULD_NOT_SAVE_TEXT : string :=
  "Couldn't save your data. Please try again.".

(** [user.username or "N/A"] *)
Definition username_or_na (u : User) : string :=
  match username u with
  | Some (String c s) => String c s
  | _ => "N/A"
  end.

Definition get_email_and_register : Handler := fun update =>
  let! m := message_of update in
  let user := from_user m in
  let email := str_lower (text m) in
  let! o := get_db in
  let docs := match o with Some st => where_email st email | None => [] end in
  if (0 <? Z.of_nat (length docs)) then
    do! reply_text ALREADY_REGISTERED_TEXT NoMarkup in
    ret END
  else
    do! try_except
      (let! st := the_db in
       do! put_db (<[py_str_int (user_id user) :=
                      {| email := email; telegram_username := username_or_na user; subjects := [] |}]> st) in
       reply_text REGISTRATION_COMPLETE_TEXT NoMarkup)
      (fun _ => reply_text COULD_NOT_SAVE_TEXT NoMarkup) in
    ret END.

(** ** Login conversation *)

Definition start_login : Handler := fun update =>
  let! ud := get_user_data in
  let! m := message_of update in
  if truthy (is_logged_in ud) then
    do! reply_text "You are already logged in." MAIN_MENU_MARKUP in
    ret END
  else
    do! reply_text "To log in, please enter your registered email address:" ReplyKeyboardRemove in
    ret CHECK_EMAIL_LOGIN.

Definition LOGIN_SUCCESSFUL_TEXT : string := "✅ Login successful! Welcome.".
Definition LOGIN_FAILED_TEXT : string :=
  "❌ Incorrect email or user not registered. Please try again or use /register.".

Definition set_is_logged_in (s : Session) (b : bool) : Session :=
  {| is_logged_in := Some b; tutor_subject := tutor_subject s; chat_session := chat_session s |}.
Definition set_tutor_subject (s : Session) (o : option string) : Session :=
  {| is_logged_in := is_logged_in s; tutor_subject := o; chat_session := chat_session s |}.
Definition set_chat_session (s : Session) (o : option ChatSession) : Session :=
  {| is_logged_in := is_logged_in s; tutor_subject := tutor_subject s; chat_session := o |}.

Definition check_email_and_login : Handler := fun update =>
  let! m := message_of update in
  let user_email_input := str_lower (text m) in
  let user_id := py_str_int (user_id (from_user m)) in
  let! o := get_db in
  let user_doc := o ≫= (fun st => st !! user_id) in
  match user_doc with
  | Some d =>
      if bool_decide (user_email_input = email d) then
        let! ud := get_user_data in
        do! put_user_data (set_is_logged_in ud true) in
        do! reply_text LOGIN_SUCCESSFUL_TEXT MAIN_MENU_MARKUP in
        ret END
      else
        do! reply_text LOGIN_FAILED_TEXT NoMarkup in
        ret END
  | None =>
      do! reply_text LOGIN_FAILED_TEXT NoMarkup in
      ret END
  end.

Definition cancel_conversation : Handler := fun update =>
  let! ud := get_user_data in
  let! m := message_of update in
  if truthy (is_logged_in ud) then
    do! reply_text "Action canceled. Returning to the main menu." MAIN_MENU_MARKUP in
    ret END
  else
    do! reply_text "Action canceled." NoMarkup in
    ret END.

(** ** Protected features

    Each decorated function of the source is the gate applied to its
    body; the body is named [_body] here. *)

Definition add_subject_command_body : Handler := fun update =>
  let! m := message_of update in
  let! current_subjects := get_user_subjects (py_str_int (user_id (from_user m))) in
  let keyboard :=
    map (fun s => [mkButton s ("add_" +:+ s)])
        (filter (fun s => s ∉ current_subjects) AVAILABLE_SUBJECTS) in
  match keyboard with
  | [] =>
      do! reply_text "You've added all available subjects!" MAIN_MENU_MARKUP in
      ret PNone
  | _ =>
      do! reply_text "Choose a subject to add:" (InlineKeyboardMarkup keyboard) in
      ret PNone
  end.
Definition add_subject_command : Handler := login_required add_subject_command_body.

Definition remove_keyboard (subjects : list string) : list (list InlineKeyboardButton) :=
  map (fun s => [mkButton s "n_"; mkButton "❌ Remove" ("remove_" +:+ s)]) subjects.

Definition my_subjects_command_body : Handler := fun update =>
  let! m := message_of update in
  let! subjects := get_user_subjects (py_str_int (user_id (from_user m))) in
  match subjects with
  | [] =>
      do! reply_text "You have no subjects yet." MAIN_MENU_MARKUP in
      ret PNone
  | _ =>
      do! reply_text "Your subjects:" (InlineKeyboardMarkup (remove_keyboard subjects)) in
      ret PNone
  end.
Definition my_subjects_command : Handler := login_required my_subjects_command_body.

Definition QUIZ_ADD_FIRST_TEXT : string :=
  "You need to add a subject first! Use the '➕ Add Subject' button.".

Definition quiz_me_command_body : Handler := fun update =>
  let! m := message_of update in
  let! subjects := get_user_subjects (py_str_int (user_id (from_user m))) in
  match subjects with
  | [] =>
      do! reply_text QUIZ_ADD_FIRST_TEXT MAIN_MENU_MARKUP in
      ret PNone
  | _ =>
      let keyboard := map (fun s => [mkButton s ("quiz_" +:+ s)]) subjects in
      do! reply_text "Which subject would you like a quiz on?" (InlineKeyboardMarkup keyboard) in
      ret PNone
  end.
Definition quiz_me_command : Handler := login_required quiz_me_command_body.

(** ** Tutor mode *)

Definition TUTOR_ADD_FIRST_TEXT : string :=
  "Add a subject first with the '➕ Add Subject' button.".

Definition tutor_keyboard (subjects : list string) : list (list InlineKeyboardButton) :=
  map (fun s => [mkButton s ("tutor_" +:+ s)]) subjects.

Definition start_tutor_session_body : Handler := fun update =>
  let! m := message_of update in
  let! subjects := get_user_subjects (py_str_int (user_id (from_user m))) in
  match subjects with
  | [] =>
      do! reply_text TUTOR_ADD_FIRST_TEXT MAIN_MENU_MARKUP in
      ret END
  | _ =>
      do! reply_text "Which subject for tutoring?" (InlineKeyboardMarkup (tutor_keyboard subjects)) in
      ret T_SELECT_SUBJECT
  end.
Definition start_tutor_session : Handler := login_required start_tutor_session_body.

Definition persona (subject : string) : string :=
  nl
  +:+ "            Your identity: You are a highly specialized AI Tutor for the IGCSE syllabus. " +:+ nl
  +:+ "            Your ONLY focus is the IGCSE curriculum for the subject: " +:+ subject +:+ "." +:+ nl
  +:+ "            " +:+ nl
  +:+ "            Your rules:" +:+ nl
  +:+ "            1. All your explanations, examples, and answers MUST be strictly relevant to the IGCSE syllabus." +:+ nl
  +:+ "            2. If a student asks a question outside this scope, gently guide them back by saying something like, "
  +:+ dq +:+ "That's an interesting question, but for the IGCSE syllabus, we should focus on..." +:+ dq +:+ nl
  +:+ "            3. Use terminology and examples that are common in IGCSE textbooks and exams." +:+ nl
  +:+ "            4. Be patient, encouraging, and clear." +:+ nl
  +:+ "            " +:+ nl
  +:+ "            Start our conversation by introducing yourself as their personal IGCSE tutor for " +:+ subject +:+ "." +:+ nl
  +:+ "            ".

Definition chat_history (subject : string) : list ChatMsg :=
  [ {| role := "user"; parts := [persona subject] |};
    {| role := "model";
       parts := ["Hello! I am your personal IGCSE Tutor for " +:+ subject
                 +:+ ". I'm ready to help you with any questions you have about the syllabus. What topic can I help you understand today?"] |} ].

Definition TUTOR_INIT_TEXT : string := "Initializing IGCSE Tutor... Please wait.".
Definition TUTOR_READY_TEXT : string :=
  "👆 You are now chatting with the IGCSE Tutor. Type /done to end the session.".
Definition TUTOR_FAILED_TEXT : string := "Couldn't connect to the AI Tutor. Session ended.".

Definition start_ai_conversation : Handler := fun update =>
  let! m := message_of update in
  let initial_question := text m in
  let! ud := get_user_data in
  let subject := default "this subject" (tutor_subject ud) in
  do! reply_text TUTOR_INIT_TEXT NoMarkup in
  try_except
    (let! model := the_ai in
     let! chat := lift (start_chat model (chat_history subject)) in
     let! response := lift (send_message model chat initial_question) in
     let! ud := get_user_data in
     do! put_user_data (set_chat_session ud (Some response.2)) in
     let! answer := lift (response_text response.1) in
     do! reply_text answer ReplyKeyboardRemove in
     do! reply_text TUTOR_READY_TEXT NoMarkup in
     ret T_TUTORING)
    (fun _ =>
     do! reply_text TUTOR_FAILED_TEXT MAIN_MENU_MARKUP in
     ret END).

(** ** The universal inline button handler *)

(** What an action branch leaves for the end of the function: [Some r]
    when the branch itself returns [r], [None] when control falls through
    to the last two lines. *)
Definition button_action (query : CallbackQuery) (action data : string) : M (option pyval) :=
  let user_id := py_str_int (user_id (cq_from_user query)) in
  if bool_decide (action = "add") then
    do! update_subjects user_id (ArrayUnion [data]) in
    do! edit_message_text query ("✅ Added '" +:+ data +:+ "'!") NoMarkup in
    ret None
  else if bool_decide (action = "remove") then
    do! update_subjects user_id (ArrayRemove [data]) in
    let! new_subjects := get_user_subjects user_id in
    match new_subjects with
    | [] =>
        do! edit_message_text query ("✅ Removed '" +:+ data +:+ "'. You have no subjects left.") NoMarkup in
        ret None
    | _ =>
        do! edit_message_text query ("✅ Removed '" +:+ data +:+ "'. Your updated list:")
              (InlineKeyboardMarkup (remove_keyboard new_subjects)) in
        ret None
    end
  else if bool_decide (action = "tutor") then
    let! ud := get_user_data in
    do! put_user_data (set_tutor_subject ud (Some data)) in
    do! edit_message_text query ("Great! Ask your question about " +:+ data +:+ ":") NoMarkup in
    ret (Some T_ASK_QUESTION)
  else if bool_decide (action = "quiz") then
    do! edit_message_text query ("⏳ Generating a quiz for '" +:+ data +:+ "'... Please wait.") NoMarkup in
    let! quiz_text := generate_quiz_from_ai data in
    do! reply_text quiz_text MAIN_MENU_MARKUP in
    do! edit_message_text query ("✅ Your quiz for '" +:+ data +:+ "' is ready!") NoMarkup in
    ret None
  else ret None.

Definition button_handler : Handler := fun update =>
  let! query := callback_query_of update in
  do! api AnswerCallbackQuery in
  match split_once "_" (cq_data query) with
  | None => raise ValueError
  | Some (action, data) =>
      let! early := button_action query action data in
      match early with
      | Some r => ret r
      | None =>
          let! ud := get_user_data in
          match tutor_subject ud with
          | None => ret END
          | Some _ => ret T_ASK_QUESTION
          end
      end
  end.

(** ** Handlers that [main] names and [main.py] does not define

    [main] registers [forward_to_ai] for the state [T_TUTORING] and
    [end_tutor_session] as the fallback for [/done]; the file holds no
    definition of either. *)

(** Modelled from the spec: the wording of the confirmation that
    [end_tutor_session] sends is missing; the specification only says
    that a confirmation is sent. *)
Definition TUTOR_DONE_TEXT : string := "Tutor session ended.".

(** Modelled from the spec: [end_tutor_session], whose definition is
    missing.  "Explicit termination command at any state: end the flow,
    discard the chat session handle and selected subject, return to idle,
    reply with a confirmation and restore the main menu." *)
Definition end_tutor_session : Handler := fun update =>
  let! m := message_of update in
  let! ud := get_user_data in
  do! put_user_data (set_tutor_subject (set_chat_session ud None) None) in
  do! reply_text TUTOR_DONE_TEXT MAIN_MENU_MARKUP in
  ret END.

(** Modelled from the spec: the wording of the failure message of
    [forward_to_ai] is missing. *)
Definition TUTOR_ERROR_TEXT : string := "The AI Tutor is unavailable. Session ended.".

(** Modelled from the spec: [forward_to_ai], whose definition is missing.
    "Forward the text to the stored chat session handle, await its reply,
    and relay the reply verbatim. Remain in tutoring"; a failure of the
    completion service gives a generic message and the flow terminates. *)
Definition forward_to_ai : Handler := fun update =>
  let! m := message_of update in
  let! ud := get_user_data in
  try_except
    (let! model := the_ai in
     match chat_session ud with
     | None => raise AttributeError
     | Some chat =>
         let! response := lift (send_message model chat (text m)) in
         do! put_user_data (set_chat_session ud (Some response.2)) in
         let! answer := lift (response_text response.1) in
         do! reply_text answer NoMarkup in
         ret T_TUTORING
     end)
    (fun _ =>
     do! reply_text TUTOR_ERROR_TEXT NoMarkup in
     ret END).

(** ** The handler table of [main]

    python-telegram-bot offers an update to the handlers of a group in
    the order they were added; the first one whose filter accepts the
    update handles it and no other does. *)

Inductive Filter : Type :=
  | Command (name : string)            (* [CommandHandler(name, _)] *)
  | TextNotCommand                     (* [filters.TEXT & ~filters.COMMAND] *)
  | RegexExact (lit : string)          (* [filters.Regex("^lit$")] *)
  | CallbackPattern (prefixes : list string).  (* [pattern="^(p1|p2|..)"] *)

Definition is_command_char (c : ascii) : bool :=
  let n := Z.of_nat (nat_of_ascii c) in
  ((48 <=? n) && (n <=? 57)) || ((65 <=? n) && (n <=? 90))
  || ((97 <=? n) && (n <=? 122)) || (n =? 95).

(** The message starts with a bot command: a slash and a command
    character. *)
Definition is_command (s : string) : bool :=
  match s with
  | String "/" (String c _) => is_command_char c
  | _ => false
  end.

Fixpoint take_command (s : string) : string :=
  match s with
  | String c s' => if is_command_char c then String c (take_command s') else EmptyString
  | EmptyString => EmptyString
  end.

Fixpoint drop_command (s : string) : string :=
  match s with
  | String c s' => if is_command_char c then drop_command s' else s
  | EmptyString => EmptyString
  end.

(** The bot a command is addressed to: the name that follows an at sign
    right after the command, when there is one. *)
Definition command_mention (s : string) : option string :=
  match drop_command s with
  | String "@" rest =>
      match take_command rest with
      | EmptyString => None
      | mention => Some mention
      end
  | _ => None
  end.

(** The command that [CommandHandler] reads in a message: the name, in
    lower case, without the slash; none when the command is addressed to
    another bot. *)
Definition command_name (s : string) : option string :=
  match s with
  | String "/" s' =>
      if is_command s then
        match command_mention s' with
        | Some mention =>
            if bool_decide (lower_ascii mention = lower_ascii bot_username)
            then Some (lower_ascii (take_command s'))
            else None
        | None => Some (lower_ascii (take_command s'))
        end
      else None
  | _ => None
  end.

Definition check_filter (f : Filter) (u : Update) : bool :=
  match f, u with
  | Command name, MessageUpdate m => bool_decide (command_name (text m) = Some name)
  | TextNotCommand, MessageUpdate m =>
      negb (bool_decide (text m = "")) && negb (is_command (text m))
  | RegexExact lit, MessageUpdate m =>
      bool_decide (text m = lit) || bool_decide (text m = lit +:+ nl)
  | CallbackPattern ps, CallbackUpdate q => existsb (fun p => startswith p (cq_data q)) ps
  | _, _ => false
  end.

Record ConversationHandler : Type := mkConversationHandler {
  entry_points : list (Filter * Handler);
  states : list (pyval * list (Filter * Handler));
  fallbacks : list (Filter * Handler)
}.

Definition reg_handler : ConversationHandler :=
  {| entry_points := [(Command "register", start_registration)];
     states := [(GET_EMAIL_REG, [(TextNotCommand, get_email_and_register)])];
     fallbacks := [(Command "cancel", cancel_conversation)] |}.

Definition login_handler : ConversationHandler :=
  {| entry_points := [(Command "login", start_login)];
     states := [(CHECK_EMAIL_LOGIN, [(TextNotCommand, check_email_and_login)])];
     fallbacks := [(Command "cancel", cancel_conversation)] |}.

Definition tutor_handler : ConversationHandler :=
  {| entry_points := [(Command "tutor", start_tutor_session);
                      (RegexExact "🧑‍🏫 Tutor", start_tutor_session)];
     states := [(T_SELECT_SUBJECT, [(CallbackPattern ["tutor_"], button_handler)]);
                (T_ASK_QUESTION, [(TextNotCommand, start_ai_conversation)]);
                (T_TUTORING, [(TextNotCommand, forward_to_ai)])];
     fallbacks := [(Command "done", end_tutor_session)] |}.

Inductive conv_id : Type := Reg | Login | Tutor.

Inductive AppHandler : Type :=
  | Plain (f : Filter) (callback : Handler)
  | Conversation (id : conv_id) (c : ConversationHandler).

Definition main_handlers : list AppHandler :=
  [ Plain (Command "start") start_command;
    Plain (Command "logout") logout_command;
    Conversation Reg reg_handler;
    Conversation Login login_handler;
    Conversation Tutor tutor_handler;
    Plain (Command "mysubjects") my_subjects_command;
    Plain (Command "addsubject") add_subject_command;
    Plain (Command "quizme") quiz_me_command;
    Plain (RegexExact "📚 My Subjects") my_subjects_command;
    Plain (RegexExact "➕ Add Subject") add_subject_command;
    Plain (RegexExact "❓ Quiz Me") quiz_me_command;
    Plain (CallbackPattern ["add_"; "remove_"; "quiz_"]) button_handler ].

(** ** Dispatch *)

Definition first_match (hs : list (Filter * Handler)) (u : Update) : option Handler :=
  snd <$> find (fun fh => check_filter fh.1 u) hs.

Definition state_handlers (c : ConversationHandler) (state : pyval) : list (Filter * Handler) :=
  match find (fun sh => bool_decide (sh.1 = state)) (states c) with
  | Some sh => sh.2
  | None => []
  end.

(** [ConversationHandler.check_update] with [allow_reentry] off: without
    a state the entry points are tried; in a state its handlers, then the
    fallbacks. *)
Definition conversation_check (c : ConversationHandler) (state : option pyval) (u : Update)
  : option Handler :=
  match state with
  | None => first_match (entry_points c) u
  | Some s =>
      match first_match (state_handlers c s) u with
      | Some h => Some h
      | None => first_match (fallbacks c) u
      end
  end.

(** [ConversationHandler._update_state] *)
Definition update_state (new_state : pyval) (state : option pyval) : option pyval :=
  if bool_decide (new_state = END) then None
  else match new_state with
       | PNone => state
       | _ => Some new_state
       end.

(** The application: one store, one model, and per user the session, the
    calls made to the user's private chat and the state of each of the
    three conversations (a conversation is keyed by chat and user; the
    chat here is the user's private chat). *)
Record App : Type := mkApp {
  app_db : option (gmap string Doc);
  app_ai : option GenerativeModel;
  app_user_data : gmap Z Session;
  app_chats : gmap Z (list ApiCall);
  reg_conv : gmap Z pyval;
  login_conv : gmap Z pyval;
  tutor_conv : gmap Z pyval
}.

Definition effective_user (u : Update) : User :=
  match u with
  | MessageUpdate m => from_user m
  | CallbackUpdate q => cq_from_user q
  end.

Definition conv_states (a : App) (id : conv_id) : gmap Z pyval :=
  match id with Reg => reg_conv a | Login => login_conv a | Tutor => tutor_conv a end.

Definition world_of (a : App) (uid : Z) : World :=
  {| db := app_db a; ai_model := app_ai a;
     user_data := default empty_session (app_user_data a !! uid);
     outbox := default [] (app_chats a !! uid) |}.

Definition set_world (a : App) (uid : Z) (w : World) : App :=
  {| app_db := db w; app_ai := app_ai a;
     app_user_data := <[uid := user_data w]> (app_user_data a);
     app_chats := <[uid := outbox w]> (app_chats a);
     reg_conv := reg_conv a; login_conv := login_conv a; tutor_conv := tutor_conv a |}.

Definition set_conv (a : App) (id : conv_id) (uid : Z) (state : option pyval) : App :=
  let upd (m : gmap Z pyval) : gmap Z pyval :=
    match state with Some s => <[uid := s]> m | None => delete uid m end in
  {| app_db := app_db a; app_ai := app_ai a;
     app_user_data := app_user_data a; app_chats := app_chats a;
     reg_conv := match id with Reg => upd (reg_conv a) | _ => reg_conv a end;
     login_conv := match id with Login => upd (login_conv a) | _ => login_conv a end;
     tutor_conv := match id with Tutor => upd (tutor_conv a) | _ => tutor_conv a end |}.

(** Which handler takes the update, and for which conversation. *)
Fixpoint select_handler (hs : list AppHandler) (a : App) (u : Update)
  : option (option conv_id * Handler) :=
  match hs with
  | [] => None
  | Plain f cb :: hs' =>
      if check_filter f u then Some (None, cb) else select_handler hs' a u
  | Conversation id c :: hs' =>
      match conversation_check c (conv_states a id !! user_id (effective_user u)) u with
      | Some cb => Some (Some id, cb)
      | None => select_handler hs' a u
      end
  end.

(** [Application.process_update]: the selected callback runs on the
    caller's world; what it did stays also when it raises; a
    conversation's state follows the value returned. *)
Definition process_update (a : App) (u : Update) : App :=
  let uid := user_id (effective_user u) in
  match select_handler main_handlers a u with
  | None => a
  | Some (conv, cb) =>
      match cb u (world_of a uid) with
      | (Ok new_state, w) =>
          let a' := set_world a uid w in
          match conv with
          | Some id => set_conv a' id uid (update_state new_state (conv_states a id !! uid))
          | None => a'
          end
      | (Raise _, w) => set_world a uid w
      end
  end.

(** The markup a message of the chat shows now: the one it was sent
    with, or the one of the last edit. *)
Fixpoint current_markup (calls : list ApiCall) (message : nat) (sent : nat) (cur : option Markup)
  : option Markup :=
  match calls with
  | [] => cur
  | AnswerCallbackQuery :: cs => current_markup cs message sent cur
  | SendMessage _ mk :: cs =>
      current_markup cs message (S sent) (if Nat.eqb sent message then Some mk else cur)
  | EditMessageText i _ mk :: cs =>
      current_markup cs message sent (if Nat.eqb i message then (cur ≫= fun _ => Some mk) else cur)
  end.

Definition markup_buttons (mk : Markup) : list string :=
  match mk with
  | InlineKeyboardMarkup kb => map callback_data (concat kb)
  | _ => []
  end.

(** A user can send any text, and can press only a button that a message
    of the chat shows. *)
Definition possible_update (a : App) (u : Update) : bool :=
  match u with
  | MessageUpdate _ => true
  | CallbackUpdate q =>
      match current_markup (default [] (app_chats a !! user_id (cq_from_user q))) (cq_message q) 0 None with
      | Some mk => bool_decide (cq_data q ∈ markup_buttons mk)
      | None => false
      end
  end.

Definition initial_app (ai : option GenerativeModel) : App :=
  {| app_db := Some ∅; app_ai := ai; app_user_data := ∅; app_chats := ∅;
     reg_conv := ∅; login_conv := ∅; tutor_conv := ∅ |}.

Inductive reachable (ai : option GenerativeModel) : App -> Prop :=
  | reachable_init : reachable ai (initial_app ai)
  | reachable_step a u :
      reachable ai a -> possible_update a u = true -> reachable ai (process_update a u).

End Bot.

(** * Properties *)

(** Unfolding of the monad's operations, for proofs that run a handler on
    a symbolic world. *)
Ltac run_py :=
  cbv beta iota delta [bind ret raise try_except lift get_db put_db get_ai get_user_data
    put_user_data api the_db the_ai message_of callback_query_of reply_text
    edit_message_text]; simpl.

Definition say (w : World) (c : ApiCall) : World := with_outbox w (outbox w ++ [c]).

(** The subjects of the caller's profile; none when there is no profile
    or no store. *)
Definition profile_subjects (o : option (gmap string Doc)) (u : User) : list string :=
  match o ≫= (fun st => st !! py_str_int (user_id u)) with
  | Some d => subjects d
  | None => []
  end.

Lemma get_user_subjects_run (u : User) (w : World) :
  get_user_subjects (py_str_int (user_id u)) w = (Ok (profile_subjects (db w) u), w).
Proof.
  unfold get_user_subjects, profile_subjects. run_py.
  destruct (db w) as [st|]; simpl; [|reflexivity].
  destruct (st !! py_str_int (user_id u)); reflexivity.
Qed.

Section Gate.

(** C1: the gate, on the message updates that the table of [main]
    delivers to a gated handler.  When [is_logged_in] is [True], the
    outcome is the wrapped operation's, on the same update and the same
    world.  When the key is absent or holds [False], the outcome is the
    login-required reply and [END], whatever the wrapped operation is:
    it is not run. *)
Theorem login_required_gate (func : Handler) (m : Message) (w : World) :
  login_required func (MessageUpdate m) w =
    match is_logged_in (user_data w) with
    | Some true => func (MessageUpdate m) w
    | Some false | None =>
        (Ok END,
         {| db := db w; ai_model := ai_model w; user_data := user_data w;
            outbox := outbox w ++ [SendMessage LOGIN_REQUIRED_TEXT ReplyKeyboardRemove] |})
    end.
Proof.
  unfold login_required. run_py.
  destruct (is_logged_in (user_data w)) as [[|]|]; reflexivity.
Qed.

(** The same on any update: the wrapped operation gets the gate's own
    argument; a rejection needs [update.message]. *)
Lemma login_required_any (func : Handler) (u : Update) (w : World) :
  login_required func u w =
    if truthy (is_logged_in (user_data w)) then func u w
    else match u with
         | MessageUpdate _ => (Ok END, say w (SendMessage LOGIN_REQUIRED_TEXT ReplyKeyboardRemove))
         | CallbackUpdate _ => (Raise AttributeError, w)
         end.
Proof.
  unfold login_required. run_py.
  destruct (truthy (is_logged_in (user_data w))); [reflexivity|].
  destruct u; reflexivity.
Qed.

End Gate.

Section Accounts.

Variable str_lower : string -> string.
Variable bot_username : string.

(** A profile exists under the caller's identifier and its stored email
    is the lower-cased input. *)
Definition login_matches (w : World) (m : Message) : Prop :=
  exists st d, db w = Some st /\ st !! py_str_int (user_id (from_user m)) = Some d
               /\ email d = str_lower (text m).

(** C2: the login handler always ends the conversation and never writes
    the store.  Exactly when the caller's own profile exists and holds
    the lower-cased input, the session afterwards has [is_logged_in] at
    [True] (the rest of it as before) and the reply is the success.
    Exactly otherwise the reply is the failure and the session is left
    as it was. *)
Theorem check_email_and_login_iff (m : Message) (w : World) :
  let '(r, w') := check_email_and_login str_lower (MessageUpdate m) w in
  r = Ok END /\ db w' = db w /\
  (login_matches w m <->
     user_data w' = {| is_logged_in := Some true;
                       tutor_subject := tutor_subject (user_data w);
                       chat_session := chat_session (user_data w) |} /\
     outbox w' = outbox w ++ [SendMessage LOGIN_SUCCESSFUL_TEXT MAIN_MENU_MARKUP]) /\
  (~ login_matches w m <->
     user_data w' = user_data w /\
     outbox w' = outbox w ++ [SendMessage LOGIN_FAILED_TEXT NoMarkup]).
Proof.
  unfold check_email_and_login, login_matches. run_py.
  destruct (db w) as [st|] eqn:Hdb; simpl.
  - destruct (st !! py_str_int (user_id (from_user m))) as [d|] eqn:Hd; simpl.
    + case_bool_decide as He; simpl.
      * split; [reflexivity|]. split; [assumption|]. split.
        -- split; [intros _; split; reflexivity|]. intros _. exists st, d. eauto.
        -- split; [intros Hn; exfalso; apply Hn; exists st, d; eauto|].
           intros [_ Ho]. apply app_inv_head in Ho. discriminate Ho.
      * split; [reflexivity|]. split; [assumption|]. split.
        -- split.
           ++ intros (st' & d' & Hst & Hd' & He'). congruence.
           ++ intros [_ Ho]. apply app_inv_head in Ho. discriminate Ho.
        -- split; [intros _; split; reflexivity|].
           intros _ (st' & d' & Hst & Hd' & He'). congruence.
    + split; [reflexivity|]. split; [assumption|]. split.
      * split.
        -- intros (st' & d' & Hst & Hd' & He'). congruence.
        -- intros [_ Ho]. apply app_inv_head in Ho. discriminate Ho.
      * split; [intros _; split; reflexivity|].
        intros _ (st' & d' & Hst & Hd' & He'). congruence.
  - split; [reflexivity|]. split; [assumption|]. split.
    + split.
      * intros (st' & d' & Hst & _). discriminate Hst.
      * intros [_ Ho]. apply app_inv_head in Ho. discriminate Ho.
    + split; [intros _; split; reflexivity|].
      intros _ (st' & d' & Hst & _). discriminate Hst.
Qed.

(** Some profile of the store holds the email. *)
Definition email_registered (o : option (gmap string Doc)) (e : string) : Prop :=
  exists st k d, o = Some st /\ st !! k = Some d /\ email d = e.

Lemma where_email_found (st : gmap string Doc) (e : string) :
  (0 <? Z.of_nat (length (where_email st e))) = true <-> email_registered (Some st) e.
Proof.
  unfold where_email, email_registered. split.
  - intros Hlen.
    destruct (filter (fun kd : string * Doc => email kd.2 = e) (map_to_list st))
      as [|[k d] l] eqn:Hf; [discriminate Hlen|].
    assert (Hin : (k, d) ∈ filter (fun kd : string * Doc => email kd.2 = e) (map_to_list st))
      by (rewrite Hf; left).
    apply list_elem_of_filter in Hin as [He Hin].
    apply elem_of_map_to_list in Hin. exists st, k, d. auto.
  - intros (st' & k & d & Hst & Hk & He). injection Hst as <-.
    assert (Hin : (k, d) ∈ filter (fun kd : string * Doc => email kd.2 = e) (map_to_list st)).
    { apply list_elem_of_filter. split; [exact He|]. apply elem_of_map_to_list. exact Hk. }
    destruct (filter (fun kd : string * Doc => email kd.2 = e) (map_to_list st)) as [|x l].
    + inversion Hin.
    + reflexivity.
Qed.

(** The profile that registration writes. *)
Definition new_profile (m : Message) : Doc :=
  {| email := str_lower (text m);
     telegram_username := username_or_na (from_user m);
     subjects := [] |}.

(** C3, as amended: an email that some profile holds is rejected and
    nothing is written.  Otherwise, with a store, the profile with the
    lower-cased email, the username (or N/A) and no subjects is written
    under the caller's identifier and the completion is confirmed;
    without a store the write fails, the reply is the generic failure
    message and nothing is written. *)
Theorem get_email_and_register_spec (m : Message) (w : World) :
  let run := get_email_and_register str_lower (MessageUpdate m) w in
  let key := py_str_int (user_id (from_user m)) in
  (email_registered (db w) (str_lower (text m)) /\
   run = (Ok END, say w (SendMessage ALREADY_REGISTERED_TEXT NoMarkup)))
  \/
  (~ email_registered (db w) (str_lower (text m)) /\
   match db w with
   | Some st =>
       run = (Ok END, say (with_db w (Some (<[key := new_profile m]> st)))
                          (SendMessage REGISTRATION_COMPLETE_TEXT NoMarkup))
   | None =>
       run = (Ok END, say w (SendMessage COULD_NOT_SAVE_TEXT NoMarkup))
   end).
Proof.
  intros run key. subst run key. unfold get_email_and_register. run_py.
  destruct (db w) as [st|] eqn:Hdb; simpl.
  - destruct (0 <? Z.of_nat (length (where_email st (str_lower (text m))))) eqn:Hq.
    + left. split; [apply where_email_found; exact Hq|].
      reflexivity.
    + right. split.
      * intros Hr. apply where_email_found in Hr. congruence.
      * rewrite Hdb. reflexivity.
  - right. split.
    + intros (st & k & d & Hst & _). discriminate Hst.
    + rewrite Hdb. reflexivity.
Qed.

End Accounts.

(** The input of the counterexample to C3: no store, as after a failed
    Firebase initialisation. *)
Definition no_store_world : World :=
  {| db := None; ai_model := None; user_data := empty_session; outbox := [] |}.
Definition ann : User := {| user_id := 7; username := Some "ann" |}.

(** A username for the bot of the concrete runs. *)
Definition this_bot : string := "igcse_tutor_bot".

(** C3, counterexample: without a store no profile holds the submitted
    email, and yet no profile is created: the reply is the generic
    failure message. *)
Lemma register_without_store :
  ~ email_registered (db no_store_world) (lower_ascii "a@b.com") /\
  get_email_and_register lower_ascii (MessageUpdate (mkMessage ann "a@b.com")) no_store_world
  = (Ok END, {| db := None; ai_model := None; user_data := empty_session;
                outbox := [SendMessage COULD_NOT_SAVE_TEXT NoMarkup] |}).
Proof.
  split.
  - intros (st & k & d & Hst & _). discriminate Hst.
  - reflexivity.
Qed.

Section Selection.

(** The verdict of the last two lines of [button_handler]. *)
Definition continuation (s : Session) : pyval :=
  match tutor_subject s with
  | None => END
  | Some _ => T_ASK_QUESTION
  end.

Definition caller_key (q : CallbackQuery) : string := py_str_int (user_id (cq_from_user q)).

Ltac run_button Hsplit :=
  unfold button_handler; run_py; rewrite Hsplit; unfold button_action;
  repeat (rewrite bool_decide_eq_false_2 by discriminate);
  try (rewrite bool_decide_eq_true_2 by reflexivity);
  unfold update_subjects, generate_quiz_from_ai; run_py.

Lemma button_add (q : CallbackQuery) (data : string) (w : World) :
  split_once "_" (cq_data q) = Some ("add", data) ->
  button_handler (CallbackUpdate q) w =
    match db w with
    | Some st =>
        match st !! caller_key q with
        | Some d =>
            (Ok (continuation (user_data w)),
             say (say (with_db w (Some (<[caller_key q :=
                                           set_subjects d (ArrayUnion [data] (subjects d))]> st)))
                      AnswerCallbackQuery)
                 (EditMessageText (cq_message q) ("✅ Added '" +:+ data +:+ "'!") NoMarkup))
        | None => (Raise NotFound, say w AnswerCallbackQuery)
        end
    | None => (Raise AttributeError, say w AnswerCallbackQuery)
    end.
Proof.
  intros Hsplit. run_button Hsplit. unfold caller_key.
  destruct (db w) as [st|] eqn:Hdb; simpl; [|reflexivity].
  destruct (st !! py_str_int (user_id (cq_from_user q))) as [d|]; simpl; [|reflexivity].
  unfold continuation. destruct (tutor_subject (user_data w)); reflexivity.
Qed.

Lemma button_remove (q : CallbackQuery) (data : string) (w : World) :
  split_once "_" (cq_data q) = Some ("remove", data) ->
  button_handler (CallbackUpdate q) w =
    match db w with
    | Some st =>
        match st !! caller_key q with
        | Some d =>
            let new_subjects := ArrayRemove [data] (subjects d) in
            (Ok (continuation (user_data w)),
             say (say (with_db w (Some (<[caller_key q := set_subjects d new_subjects]> st)))
                      AnswerCallbackQuery)
                 (match new_subjects with
                  | [] => EditMessageText (cq_message q)
                            ("✅ Removed '" +:+ data +:+ "'. You have no subjects left.") NoMarkup
                  | _ => EditMessageText (cq_message q)
                           ("✅ Removed '" +:+ data +:+ "'. Your updated list:")
                           (InlineKeyboardMarkup (remove_keyboard new_subjects))
                  end))
        | None => (Raise NotFound, say w AnswerCallbackQuery)
        end
    | None => (Raise AttributeError, say w AnswerCallbackQuery)
    end.
Proof.
  intros Hsplit. run_button Hsplit. unfold caller_key, get_user_subjects. run_py.
  destruct (db w) as [st|] eqn:Hdb; simpl; [|reflexivity].
  destruct (st !! py_str_int (user_id (cq_from_user q))) as [d|]; simpl; [|reflexivity].
  rewrite lookup_insert_eq.
  unfold continuation.
  destruct (ArrayRemove [data] (subjects d)); simpl;
    destruct (tutor_subject (user_data w)); reflexivity.
Qed.

Lemma button_tutor (q : CallbackQuery) (data : string) (w : World) :
  split_once "_" (cq_data q) = Some ("tutor", data) ->
  button_handler (CallbackUpdate q) w =
    (Ok T_ASK_QUESTION,
     say (say (with_user_data w (set_tutor_subject (user_data w) (Some data)))
              AnswerCallbackQuery)
         (EditMessageText (cq_message q) ("Great! Ask your question about " +:+ data +:+ ":") NoMarkup)).
Proof.
  intros Hsplit. run_button Hsplit. reflexivity.
Qed.

(** What [generate_quiz_from_ai] returns. *)
Definition quiz_text_of (o : option GenerativeModel) (subject_name : string) : string :=
  match o with
  | None => "Sorry, the AI service is currently unavailable."
  | Some model =>
      match generate_content model (quiz_prompt subject_name) with
      | Ok t => t
      | Raise _ => "Sorry, an error occurred while creating your quiz. Please try again later."
      end
  end.

Lemma button_quiz (q : CallbackQuery) (data : string) (w : World) :
  split_once "_" (cq_data q) = Some ("quiz", data) ->
  button_handler (CallbackUpdate q) w =
    (Ok (continuation (user_data w)),
     say (say (say (say w AnswerCallbackQuery)
                   (EditMessageText (cq_message q)
                      ("⏳ Generating a quiz for '" +:+ data +:+ "'... Please wait.") NoMarkup))
              (SendMessage (quiz_text_of (ai_model w) data) MAIN_MENU_MARKUP))
         (EditMessageText (cq_message q) ("✅ Your quiz for '" +:+ data +:+ "' is ready!") NoMarkup)).
Proof.
  intros Hsplit. run_button Hsplit. unfold quiz_text_of, continuation.
  destruct (ai_model w) as [model|]; simpl.
  - destruct (generate_content model (quiz_prompt data)); simpl;
      destruct (tutor_subject (user_data w)); reflexivity.
  - destruct (tutor_subject (user_data w)); reflexivity.
Qed.

End Selection.

Section Dispatcher.

(** C5: for the four action tags, the dispatcher's verdict is [END]
    exactly when the session holds no tutor subject once the action
    branch has run, and [T_ASK_QUESTION] exactly when it holds one.  The
    branch of add and remove raises, and the dispatcher gives no verdict,
    when the caller has no profile in the store (or there is no store). *)
Theorem button_handler_verdict (q : CallbackQuery) (action data : string) (w : World) :
  split_once "_" (cq_data q) = Some (action, data) ->
  action ∈ ["add"; "remove"; "tutor"; "quiz"] ->
  match button_handler (CallbackUpdate q) w with
  | (Ok r, w') =>
      (r = END <-> tutor_subject (user_data w') = None) /\
      (r = T_ASK_QUESTION <-> tutor_subject (user_data w') <> None)
  | (Raise _, w') =>
      (action = "add" \/ action = "remove") /\
      db w ≫= (fun st => st !! caller_key q) = None
  end.
Proof.
  intros Hsplit Hact.
  assert (Hverdict : forall s : Session,
             (continuation s = END <-> tutor_subject s = None) /\
             (continuation s = T_ASK_QUESTION <-> tutor_subject s <> None)).
  { intros s. unfold continuation. destruct (tutor_subject s); split; split; intros H;
      try reflexivity; try discriminate H; try congruence. }
  repeat (apply elem_of_cons in Hact as [-> | Hact]).
  - rewrite (button_add q data w Hsplit).
    destruct (db w) as [st|]; simpl; [|auto].
    destruct (st !! caller_key q); simpl; [apply Hverdict | auto].
  - rewrite (button_remove q data w Hsplit).
    destruct (db w) as [st|]; simpl; [|auto].
    destruct (st !! caller_key q); simpl; [apply Hverdict | auto].
  - rewrite (button_tutor q data w Hsplit). simpl.
    split; split; intros H; try discriminate H; try reflexivity. congruence.
  - rewrite (button_quiz q data w Hsplit). simpl. apply Hverdict.
  - inversion Hact.
Qed.

(** ** The add operation of the store *)

Lemma ArrayUnion_keeps (xs l : list string) (y : string) :
  y ∈ l -> y ∈ ArrayUnion xs l.
Proof.
  unfold ArrayUnion. revert l. induction xs as [|x xs IH]; intros l Hy; simpl; [exact Hy|].
  apply IH. case_bool_decide; [exact Hy|]. apply elem_of_app. left. exact Hy.
Qed.

Lemma ArrayUnion_adds (xs l : list string) (x : string) :
  x ∈ xs -> x ∈ ArrayUnion xs l.
Proof.
  revert l. induction xs as [|x' xs IH]; intros l Hx; [inversion Hx|].
  apply elem_of_cons in Hx as [-> | Hx].
  - unfold ArrayUnion. simpl. apply (ArrayUnion_keeps xs).
    case_bool_decide; [assumption|]. apply elem_of_app. right. left.
  - unfold ArrayUnion. simpl. apply IH. exact Hx.
Qed.

Lemma ArrayUnion_present (xs l : list string) :
  (forall x, x ∈ xs -> x ∈ l) -> ArrayUnion xs l = l.
Proof.
  unfold ArrayUnion. induction xs as [|x xs IH]; intros Hall; simpl; [reflexivity|].
  rewrite bool_decide_eq_true_2 by (apply Hall; left).
  apply IH. intros y Hy. apply Hall. right. exact Hy.
Qed.

Lemma ArrayUnion_idempotent (xs l : list string) :
  ArrayUnion xs (ArrayUnion xs l) = ArrayUnion xs l.
Proof. apply ArrayUnion_present. intros x Hx. apply ArrayUnion_adds. exact Hx. Qed.

(** C9: pressing the same add option twice.  Both runs succeed on a
    caller with a profile; the second leaves the store as the first left
    it, with the subject in the profile's subjects. *)
Theorem add_subject_twice (q : CallbackQuery) (data : string) (w : World)
    (st : gmap string Doc) (d : Doc) :
  split_once "_" (cq_data q) = Some ("add", data) ->
  db w = Some st ->
  st !! caller_key q = Some d ->
  exists r1 w1 r2 w2,
    button_handler (CallbackUpdate q) w = (Ok r1, w1) /\
    button_handler (CallbackUpdate q) w1 = (Ok r2, w2) /\
    db w2 = db w1 /\
    profile_subjects (db w2) (cq_from_user q) = ArrayUnion [data] (subjects d) /\
    data ∈ profile_subjects (db w2) (cq_from_user q).
Proof.
  intros Hsplit Hdb Hd.
  pose proof (button_add q data w Hsplit) as H1. rewrite Hdb, Hd in H1.
  eexists _, _. 
  match type of H1 with _ = (_, ?w1) =>
    pose proof (button_add q data w1 Hsplit) as H2 end.
  simpl in H2. rewrite lookup_insert_eq in H2. simpl in H2.
  rewrite ArrayUnion_idempotent, insert_insert_eq in H2.
  eexists _, _. split; [exact H1|]. split; [exact H2|]. simpl.
  split; [reflexivity|].
  unfold profile_subjects. simpl. fold (caller_key q). rewrite lookup_insert_eq. simpl.
  split; [reflexivity|]. apply ArrayUnion_adds. left.
Qed.

(** ** The dispatcher does not read the login flag *)

Definition set_flag (w : World) (o : option bool) : World :=
  with_user_data w {| is_logged_in := o;
                      tutor_subject := tutor_subject (user_data w);
                      chat_session := chat_session (user_data w) |}.

Lemma button_handler_flag (u : Update) (w : World) (o : option bool) :
  button_handler u (set_flag w o) =
    ((button_handler u w).1, set_flag (button_handler u w).2 o).
Proof.
  destruct u as [m|q]; [reflexivity|].
  unfold button_handler. run_py.
  destruct (split_once "_" (cq_data q)) as [[action data]|]; [|reflexivity].
  unfold button_action.
  repeat case_bool_decide;
    unfold update_subjects, get_user_subjects, generate_quiz_from_ai; run_py.
  - destruct (db w) as [st|]; simpl; [|reflexivity].
    destruct (st !! py_str_int (user_id (cq_from_user q))); simpl; [|reflexivity].
    destruct (tutor_subject (user_data w)); reflexivity.
  - destruct (db w) as [st|]; simpl; [|reflexivity].
    destruct (st !! py_str_int (user_id (cq_from_user q))); simpl; [|reflexivity].
    rewrite lookup_insert_eq.
    destruct (ArrayRemove [data] _); simpl;
      destruct (tutor_subject (user_data w)); reflexivity.
  - reflexivity.
  - destruct (ai_model w) as [model|]; simpl.
    + destruct (generate_content model (quiz_prompt data)); simpl;
        destruct (tutor_subject (user_data w)); reflexivity.
    + destruct (tutor_subject (user_data w)); reflexivity.
  - destruct (tutor_subject (user_data w)); reflexivity.
Qed.

End Dispatcher.

Section TutorFlow.

(** The completion service fails on the first question: there is no
    model, or [start_chat] raises, or it gives a session and
    [send_message_async] raises on the question. *)
Definition first_question_fails (w : World) (question : string) : Prop :=
  match ai_model w with
  | None => True
  | Some model =>
      match start_chat model (chat_history (default "this subject" (tutor_subject (user_data w)))) with
      | Raise _ => True
      | Ok chat =>
          match send_message model chat question with
          | Raise _ => True
          | Ok _ => False
          end
      end
  end.

(** X21: when there is no model, or [start_chat] or
    [send_message_async] raises, the handler has sent the initialising
    notice and the generic failure message, returns [END], and the
    session is what it was: no handle has been stored, also when
    [start_chat] had produced one. *)
Theorem start_ai_conversation_failure (m : Message) (w : World) :
  first_question_fails w (text m) ->
  let '(r, w') := start_ai_conversation (MessageUpdate m) w in
  r = Ok END /\
  outbox w' = outbox w ++ [SendMessage TUTOR_INIT_TEXT NoMarkup;
                           SendMessage TUTOR_FAILED_TEXT MAIN_MENU_MARKUP] /\
  user_data w' = user_data w /\
  (chat_session (user_data w) = None -> chat_session (user_data w') = None) /\
  db w' = db w.
Proof.
  unfold first_question_fails, start_ai_conversation. run_py. intros Hfail.
  destruct (ai_model w) as [model|]; simpl.
  - destruct (start_chat model _) as [chat|e]; simpl.
    + destruct (send_message model chat (text m)) as [response|e]; simpl; [contradiction|].
      rewrite <- app_assoc. auto.
    + rewrite <- app_assoc. auto.
  - rewrite <- app_assoc. auto.
Qed.

(** When the service answers, the handle is stored and the flow goes on
    to [T_TUTORING]. *)
Lemma start_ai_conversation_success (m : Message) (w : World) (model : GenerativeModel)
    (chat chat' : ChatSession) (response : Response) (answer : string) :
  ai_model w = Some model ->
  start_chat model (chat_history (default "this subject" (tutor_subject (user_data w)))) = Ok chat ->
  send_message model chat (text m) = Ok (response, chat') ->
  response_text response = Ok answer ->
  start_ai_conversation (MessageUpdate m) w =
    (Ok T_TUTORING,
     say (say (say (with_user_data w (set_chat_session (user_data w) (Some chat')))
                   (SendMessage TUTOR_INIT_TEXT NoMarkup))
              (SendMessage answer ReplyKeyboardRemove))
         (SendMessage TUTOR_READY_TEXT NoMarkup)).
Proof.
  intros Hai Hstart Hsend Htext. unfold start_ai_conversation. run_py.
  rewrite Hai. simpl. rewrite Hstart. simpl. rewrite Hsend. simpl. rewrite Htext. reflexivity.
Qed.

(** C6: the failure the handler does not clean up after.  The source
    stores the session in [user_data] as soon as [send_message_async]
    has returned, and reads the answer's text afterwards, inside the
    same [try].  When that read raises, the handler sends the failure
    message and returns [END], and the handle just stored stays in the
    session. *)
Theorem start_ai_conversation_unread_answer (m : Message) (w : World) (model : GenerativeModel)
    (chat chat' : ChatSession) (response : Response) (e : exn) :
  ai_model w = Some model ->
  start_chat model (chat_history (default "this subject" (tutor_subject (user_data w)))) = Ok chat ->
  send_message model chat (text m) = Ok (response, chat') ->
  response_text response = Raise e ->
  let '(r, w') := start_ai_conversation (MessageUpdate m) w in
  r = Ok END /\
  outbox w' = outbox w ++ [SendMessage TUTOR_INIT_TEXT NoMarkup;
                           SendMessage TUTOR_FAILED_TEXT MAIN_MENU_MARKUP] /\
  chat_session (user_data w') = Some chat' /\
  is_logged_in (user_data w') = is_logged_in (user_data w) /\
  tutor_subject (user_data w') = tutor_subject (user_data w) /\
  db w' = db w.
Proof.
  intros Hai Hstart Hsend Htext. unfold start_ai_conversation. run_py.
  rewrite Hai. simpl. rewrite Hstart. simpl. rewrite Hsend. simpl. rewrite Htext. simpl.
  rewrite <- app_assoc. auto 10.
Qed.

Lemma start_tutor_session_body_run (m : Message) (w : World) :
  start_tutor_session_body (MessageUpdate m) w =
    match profile_subjects (db w) (from_user m) with
    | [] => (Ok END, say w (SendMessage TUTOR_ADD_FIRST_TEXT MAIN_MENU_MARKUP))
    | l => (Ok T_SELECT_SUBJECT,
            say w (SendMessage "Which subject for tutoring?" (InlineKeyboardMarkup (tutor_keyboard l))))
    end.
Proof.
  unfold start_tutor_session_body. run_py. rewrite get_user_subjects_run.
  destruct (profile_subjects (db w) (from_user m)); reflexivity.
Qed.

Lemma quiz_me_command_body_run (m : Message) (w : World) :
  quiz_me_command_body (MessageUpdate m) w =
    match profile_subjects (db w) (from_user m) with
    | [] => (Ok PNone, say w (SendMessage QUIZ_ADD_FIRST_TEXT MAIN_MENU_MARKUP))
    | l => (Ok PNone,
            say w (SendMessage "Which subject would you like a quiz on?"
                     (InlineKeyboardMarkup (map (fun s => [mkButton s ("quiz_" +:+ s)]) l))))
    end.
Proof.
  unfold quiz_me_command_body. run_py. rewrite get_user_subjects_run.
  destruct (profile_subjects (db w) (from_user m)); reflexivity.
Qed.

(** C7: a caller without subjects.  The tutor entry and the quiz entry
    reply that a subject has to be added first and stop; through the
    gate, the only other outcome is the login-required reply.  In no
    case is [T_SELECT_SUBJECT] returned or an inline keyboard sent. *)
Theorem no_subjects_short_circuit (m : Message) (w : World) :
  profile_subjects (db w) (from_user m) = [] ->
  start_tutor_session_body (MessageUpdate m) w
    = (Ok END, say w (SendMessage TUTOR_ADD_FIRST_TEXT MAIN_MENU_MARKUP)) /\
  quiz_me_command_body (MessageUpdate m) w
    = (Ok PNone, say w (SendMessage QUIZ_ADD_FIRST_TEXT MAIN_MENU_MARKUP)) /\
  start_tutor_session (MessageUpdate m) w
    = (Ok END,
       say w (if truthy (is_logged_in (user_data w))
              then SendMessage TUTOR_ADD_FIRST_TEXT MAIN_MENU_MARKUP
              else SendMessage LOGIN_REQUIRED_TEXT ReplyKeyboardRemove)) /\
  quiz_me_command (MessageUpdate m) w
    = (Ok (if truthy (is_logged_in (user_data w)) then PNone else END),
       say w (if truthy (is_logged_in (user_data w))
              then SendMessage QUIZ_ADD_FIRST_TEXT MAIN_MENU_MARKUP
              else SendMessage LOGIN_REQUIRED_TEXT ReplyKeyboardRemove)) /\
  (start_tutor_session (MessageUpdate m) w).1 <> Ok T_SELECT_SUBJECT.
Proof.
  intros Hnone.
  pose proof (start_tutor_session_body_run m w) as Ht. rewrite Hnone in Ht.
  pose proof (quiz_me_command_body_run m w) as Hq. rewrite Hnone in Hq.
  unfold start_tutor_session, quiz_me_command. rewrite !login_required_any, Ht, Hq.
  repeat split; try (destruct (truthy (is_logged_in (user_data w))); reflexivity).
  destruct (truthy (is_logged_in (user_data w))); simpl; discriminate.
Qed.

Lemma tutor_keyboard_buttons (l : list string) :
  map callback_data (concat (tutor_keyboard l)) = map (fun s => "tutor_" +:+ s) l.
Proof. induction l as [|s l IH]; simpl; [reflexivity|]. f_equal. exact IH. Qed.

Lemma split_tutor (s : string) : split_once "_" ("tutor_" +:+ s) = Some ("tutor", s).
Proof. reflexivity. Qed.

(** C8, as amended: the options that the tutor entry presents are the
    subjects of the caller's profile at that time, and the selection
    records the payload of the option pressed without consulting the
    profile.  So when the caller presses one of the options presented by
    the entry, in a world where the caller's profile is still the one
    the entry read (the rest of the store may differ), the flow goes to
    [T_ASK_QUESTION], the subject recorded in the session is the payload
    of the pressed option, and it is a member of the profile's
    subjects. *)
Theorem tutor_selection_of_entry (m : Message) (w w1 w' : World) (q : CallbackQuery) :
  start_tutor_session_body (MessageUpdate m) w = (Ok T_SELECT_SUBJECT, w1) ->
  (exists body kb, last (outbox w1) = Some (SendMessage body (InlineKeyboardMarkup kb))
                   /\ cq_data q ∈ map callback_data (concat kb)) ->
  cq_from_user q = from_user m ->
  db w' ≫= (fun st => st !! py_str_int (user_id (from_user m)))
    = db w ≫= (fun st => st !! py_str_int (user_id (from_user m))) ->
  exists s,
    cq_data q = "tutor_" +:+ s /\
    (button_handler (CallbackUpdate q) w').1 = Ok T_ASK_QUESTION /\
    tutor_subject (user_data (button_handler (CallbackUpdate q) w').2) = Some s /\
    is_logged_in (user_data (button_handler (CallbackUpdate q) w').2) = is_logged_in (user_data w') /\
    chat_session (user_data (button_handler (CallbackUpdate q) w').2) = chat_session (user_data w') /\
    db (button_handler (CallbackUpdate q) w').2 = db w' /\
    outbox (button_handler (CallbackUpdate q) w').2
      = outbox w' ++ [AnswerCallbackQuery;
                      EditMessageText (cq_message q)
                        ("Great! Ask your question about " +:+ s +:+ ":") NoMarkup] /\
    s ∈ profile_subjects (db w') (cq_from_user q).
Proof.
  intros Hentry (body & kb & Hlast & Hin) Huser Hdb.
  rewrite start_tutor_session_body_run in Hentry.
  destruct (profile_subjects (db w) (from_user m)) as [|s0 l] eqn:Hsubj; [discriminate Hentry|].
  injection Hentry as <-. unfold say, with_outbox in Hlast. cbn [outbox] in Hlast.
  rewrite last_snoc in Hlast. injection Hlast as _ <-.
  change (cq_data q ∈ map callback_data (concat (tutor_keyboard (s0 :: l)))) in Hin.
  rewrite tutor_keyboard_buttons in Hin.
  apply list_elem_of_fmap in Hin as (s & Hdata & Hs).
  exists s. split; [exact Hdata|].
  rewrite (button_tutor q s w') by (rewrite Hdata; apply split_tutor).
  cbn [fst snd]. unfold say, with_outbox, with_user_data. cbn.
  rewrite <- app_assoc.
  repeat (split; [reflexivity|]).
  unfold profile_subjects in *. rewrite Huser, Hdb, Hsubj. exact Hs.
Qed.

End TutorFlow.

Section Application.

Variable str_lower : string -> string.
Variable bot_username : string.

(** ** The termination command *)

Lemma command_is_command (t name : string) :
  command_name bot_username t = Some name -> is_command t = true.
Proof.
  unfold command_name. destruct t as [|c t]; [discriminate|].
  destruct (Ascii.eqb_spec c "/") as [->|Hc].
  - destruct (is_command (String "/" t)); [reflexivity | discriminate].
  - intros H. exfalso. revert H.
    destruct c as [[] [] [] [] [] [] [] []]; try discriminate. contradiction.
Qed.

Section Done.

Variable m : Message.
Hypothesis Hdone : command_name bot_username (text m) = Some "done".

Lemma done_not_text : check_filter bot_username TextNotCommand (MessageUpdate m) = false.
Proof.
  simpl. rewrite (command_is_command _ _ Hdone). apply andb_false_r.
Qed.

Lemma done_command (name : string) :
  check_filter bot_username (Command name) (MessageUpdate m) = bool_decide ("done" = name).
Proof.
  simpl. rewrite Hdone. apply bool_decide_ext. split; congruence.
Qed.

Lemma reg_skips_done (state : option pyval) :
  conversation_check bot_username (reg_handler str_lower) state (MessageUpdate m) = None.
Proof.
  unfold conversation_check, first_match, state_handlers, reg_handler.
  cbn [entry_points states fallbacks find fst snd fmap option_fmap option_map].
  destruct state as [s|].
  - destruct (bool_decide (GET_EMAIL_REG = s));
      cbn [find fst snd]; rewrite ?done_not_text, ?done_command;
      cbn [find fst snd]; rewrite ?done_command; reflexivity.
  - rewrite done_command. reflexivity.
Qed.

Lemma login_skips_done (state : option pyval) :
  conversation_check bot_username (login_handler str_lower) state (MessageUpdate m) = None.
Proof.
  unfold conversation_check, first_match, state_handlers, login_handler.
  cbn [entry_points states fallbacks find fst snd fmap option_fmap option_map].
  destruct state as [s|].
  - destruct (bool_decide (CHECK_EMAIL_LOGIN = s));
      cbn [find fst snd]; rewrite ?done_not_text, ?done_command;
      cbn [find fst snd]; rewrite ?done_command; reflexivity.
  - rewrite done_command. reflexivity.
Qed.

Lemma tutor_takes_done (state : pyval) :
  state ∈ [T_SELECT_SUBJECT; T_ASK_QUESTION; T_TUTORING] ->
  conversation_check bot_username tutor_handler (Some state) (MessageUpdate m) = Some end_tutor_session.
Proof.
  intros Hstate.
  assert (Hfallback : first_match bot_username (fallbacks tutor_handler) (MessageUpdate m)
                      = Some end_tutor_session).
  { unfold first_match. cbn [fallbacks tutor_handler find fst].
    rewrite done_command, bool_decide_eq_true_2 by reflexivity. reflexivity. }
  unfold conversation_check. rewrite Hfallback.
  repeat (apply elem_of_cons in Hstate as [-> | Hstate]); [| | | inversion Hstate].
  - change (state_handlers tutor_handler T_SELECT_SUBJECT)
      with [(CallbackPattern ["tutor_"], button_handler)].
    reflexivity.
  - change (state_handlers tutor_handler T_ASK_QUESTION)
      with [(TextNotCommand, start_ai_conversation)].
    unfold first_match. cbn [find fst]. rewrite done_not_text. reflexivity.
  - change (state_handlers tutor_handler T_TUTORING)
      with [(TextNotCommand, forward_to_ai)].
    unfold first_match. cbn [find fst]. rewrite done_not_text. reflexivity.
Qed.

Lemma end_tutor_session_run (w : World) :
  end_tutor_session (MessageUpdate m) w =
    (Ok END,
     say (with_user_data w (set_tutor_subject (set_chat_session (user_data w) None) None))
         (SendMessage TUTOR_DONE_TEXT MAIN_MENU_MARKUP)).
Proof. reflexivity. Qed.

(** C4: [/done] in any state of the tutor flow.  The update goes to
    [end_tutor_session]; afterwards the caller has no state in the tutor
    conversation, the session holds neither a chat handle nor a selected
    subject, and the last message sent is the confirmation with the main
    menu.  The login flag and the store are untouched. *)
Theorem done_ends_tutor_flow (a : App) (state : pyval) :
  state ∈ [T_SELECT_SUBJECT; T_ASK_QUESTION; T_TUTORING] ->
  tutor_conv a !! user_id (from_user m) = Some state ->
  let uid := user_id (from_user m) in
  let before := default empty_session (app_user_data a !! uid) in
  let a' := process_update str_lower bot_username a (MessageUpdate m) in
  select_handler bot_username (main_handlers str_lower) a (MessageUpdate m) = Some (Some Tutor, end_tutor_session) /\
  tutor_conv a' !! uid = None /\
  app_user_data a' !! uid =
    Some {| is_logged_in := is_logged_in before; tutor_subject := None; chat_session := None |} /\
  app_chats a' !! uid =
    Some (default [] (app_chats a !! uid) ++ [SendMessage TUTOR_DONE_TEXT MAIN_MENU_MARKUP]) /\
  app_db a' = app_db a.
Proof.
  intros Hstate Hconv uid before a'.
  assert (Hsel : select_handler bot_username (main_handlers str_lower) a (MessageUpdate m)
                 = Some (Some Tutor, end_tutor_session)).
  { unfold main_handlers. cbn [select_handler].
    rewrite !done_command.
    rewrite !bool_decide_eq_false_2 by discriminate.
    rewrite reg_skips_done, login_skips_done.
    cbn [conv_states effective_user]. rewrite Hconv.
    rewrite (tutor_takes_done state Hstate). reflexivity. }
  split; [exact Hsel|].
  subst a' before uid. unfold process_update. rewrite Hsel.
  cbn [effective_user]. rewrite end_tutor_session_run.
  cbn [conv_states]. rewrite Hconv.
  unfold update_state. rewrite bool_decide_eq_true_2 by reflexivity.
  unfold set_conv, set_world, say. cbn.
  rewrite lookup_delete_eq, !lookup_insert_eq. auto.
Qed.

End Done.

End Application.

Section UngatedDispatcher.

Variable str_lower : string -> string.
Variable bot_username : string.

Definition flag_session (s : Session) (o : option bool) : Session :=
  {| is_logged_in := o; tutor_subject := tutor_subject s; chat_session := chat_session s |}.

(** The application with the caller's login flag replaced. *)
Definition set_app_flag (a : App) (uid : Z) (o : option bool) : App :=
  {| app_db := app_db a; app_ai := app_ai a;
     app_user_data :=
       <[uid := flag_session (default empty_session (app_user_data a !! uid)) o]> (app_user_data a);
     app_chats := app_chats a;
     reg_conv := reg_conv a; login_conv := login_conv a; tutor_conv := tutor_conv a |}.

(** The tags of the universal registration. *)
Definition universal_tag (data : string) : bool :=
  existsb (fun p => startswith p data) ["add_"; "remove_"; "quiz_"].

Lemma universal_not_tutor (data : string) :
  universal_tag data = true -> startswith "tutor_" data = false.
Proof.
  unfold universal_tag. destruct data as [|c data]; [reflexivity|].
  cbn [existsb startswith].
  destruct (Ascii.eqb_spec "t" c) as [<-|Hc]; [discriminate | reflexivity].
Qed.

(** A callback query passes every conversation unless it is a tutor
    option pressed in [T_SELECT_SUBJECT]. *)
Lemma conversations_skip_callback (q : CallbackQuery) :
  universal_tag (cq_data q) = true ->
  (forall st, conversation_check bot_username (reg_handler str_lower) st (CallbackUpdate q) = None) /\
  (forall st, conversation_check bot_username (login_handler str_lower) st (CallbackUpdate q) = None) /\
  (forall st, conversation_check bot_username tutor_handler st (CallbackUpdate q) = None).
Proof.
  intros Htag. pose proof (universal_not_tutor _ Htag) as Hnot.
  repeat split; intros [s|]; try reflexivity;
    unfold conversation_check, state_handlers;
    cbn [states reg_handler login_handler tutor_handler find fst snd];
    repeat case_bool_decide; unfold first_match;
    cbn [find fst snd check_filter existsb fallbacks reg_handler login_handler tutor_handler];
    rewrite ?Hnot; reflexivity.
Qed.

Lemma universal_selected (a : App) (q : CallbackQuery) :
  universal_tag (cq_data q) = true ->
  select_handler bot_username (main_handlers str_lower) a (CallbackUpdate q) = Some (None, button_handler).
Proof.
  intros Htag. destruct (conversations_skip_callback q Htag) as (Hreg & Hlogin & Htutor).
  unfold main_handlers. cbn [select_handler].
  rewrite Hreg, Hlogin, Htutor.
  change (check_filter bot_username (CallbackPattern ["add_"; "remove_"; "quiz_"]) (CallbackUpdate q))
    with (universal_tag (cq_data q)).
  rewrite Htag. reflexivity.
Qed.

(** C10: an add, remove or quiz selection goes to [button_handler], with
    no gate; and two runs from applications that differ only in the
    caller's login flag end in applications that differ only in that
    flag: same store, same calls to the chat, same conversation states. *)
Theorem universal_dispatch_ignores_login (a : App) (q : CallbackQuery) (o : option bool) :
  universal_tag (cq_data q) = true ->
  let uid := user_id (cq_from_user q) in
  select_handler bot_username (main_handlers str_lower) a (CallbackUpdate q) = Some (None, button_handler) /\
  process_update str_lower bot_username (set_app_flag a uid o) (CallbackUpdate q)
    = set_app_flag (process_update str_lower bot_username a (CallbackUpdate q)) uid o.
Proof.
  intros Htag uid. subst uid. split; [apply universal_selected; exact Htag|].
  unfold process_update. rewrite !universal_selected by exact Htag.
  cbn [effective_user].
  set (uid := user_id (cq_from_user q)).
  assert (Hworld : world_of (set_app_flag a uid o) uid = set_flag (world_of a uid) o).
  { unfold world_of, set_app_flag, set_flag, with_user_data. cbn.
    rewrite lookup_insert_eq. reflexivity. }
  rewrite Hworld, button_handler_flag.
  assert (Hset : forall w, set_world (set_app_flag a uid o) uid (set_flag w o)
                           = set_app_flag (set_world a uid w) uid o).
  { intros w. unfold set_world, set_app_flag, set_flag, with_user_data, flag_session. cbn.
    rewrite lookup_insert_eq, !insert_insert_eq. reflexivity. }
  destruct (button_handler (CallbackUpdate q) (world_of a uid)) as [[r|e] w]; cbn [fst snd];
    apply Hset.
Qed.

End UngatedDispatcher.

(** * Concrete runs *)

Definition run_updates (a : App) (us : list Update) : App :=
  fold_left (process_update lower_ascii this_bot) us a.

(** Every update of the list is one the user can send when its turn
    comes. *)
Fixpoint all_possible (a : App) (us : list Update) : bool :=
  match us with
  | [] => true
  | u :: us' => possible_update a u && all_possible (process_update lower_ascii this_bot a u) us'
  end.

Lemma run_updates_reachable (ai : option GenerativeModel) (us : list Update) (a : App) :
  reachable lower_ascii this_bot ai a -> all_possible a us = true ->
  reachable lower_ascii this_bot ai (run_updates a us).
Proof.
  revert a. induction us as [|u us IH]; intros a Ha Hall; [exact Ha|].
  simpl in Hall. apply andb_true_iff in Hall as [Hu Hall].
  apply IH; [|exact Hall]. apply reachable_step; assumption.
Qed.

Definition says (t : string) : Update := MessageUpdate (mkMessage ann t).
Definition presses (message : nat) (data : string) : Update :=
  CallbackUpdate (mkCallbackQuery ann data message).

(** Ann registers, logs in, adds Math, opens the tutor menu (message 5),
    opens her subject list (message 6) and removes Math there. *)
Definition until_removed : list Update :=
  [ says "/register"; says "Ann@Example.com"; says "/login"; says "ann@example.com";
    says "➕ Add Subject"; presses 4 "add_Math";
    says "/tutor"; says "📚 My Subjects"; presses 6 "remove_Math" ].

(** The tutor menu of message 5 still shows its Math option. *)
Definition stale_option : Update := presses 5 "tutor_Math".

(** C8, counterexample: after the removal the application is reachable,
    Ann is in [T_SELECT_SUBJECT] and her profile has no subject; the Math
    option of the tutor menu can still be pressed, and pressing it
    enters [T_ASK_QUESTION] with Math recorded, which her profile does
    not hold. *)
Lemma stale_tutor_option :
  reachable lower_ascii this_bot None (run_updates (initial_app None) until_removed) /\
  tutor_conv (run_updates (initial_app None) until_removed) !! 7 = Some T_SELECT_SUBJECT /\
  possible_update (run_updates (initial_app None) until_removed) stale_option = true /\
  reachable lower_ascii this_bot None (run_updates (initial_app None) (until_removed ++ [stale_option])) /\
  tutor_conv (run_updates (initial_app None) (until_removed ++ [stale_option])) !! 7
    = Some T_ASK_QUESTION /\
  tutor_subject <$> app_user_data (run_updates (initial_app None) (until_removed ++ [stale_option])) !! 7
    = Some (Some "Math") /\
  (app_db (run_updates (initial_app None) (until_removed ++ [stale_option]))
     ≫= fun st => subjects <$> st !! "7") = Some [] /\
  "Math" ∉ profile_subjects
             (app_db (run_updates (initial_app None) (until_removed ++ [stale_option]))) ann.
Proof.
  split; [apply run_updates_reachable; [constructor | vm_compute; reflexivity]|].
  split; [vm_compute; reflexivity|].
  split; [vm_compute; reflexivity|].
  split; [apply run_updates_reachable; [constructor | vm_compute; reflexivity]|].
  split; [vm_compute; reflexivity|].
  split; [vm_compute; reflexivity|].
  split; [vm_compute; reflexivity|].
  assert (Hnone : profile_subjects
            (app_db (run_updates (initial_app None) (until_removed ++ [stale_option]))) ann = [])
    by (vm_compute; reflexivity).
  rewrite Hnone. apply not_elem_of_nil.
Qed.

(** ** The theorems at concrete inputs *)

(** Ann in the middle of tutoring, with a chat handle and a subject. *)
Definition tutoring_app : App :=
  {| app_db := Some {[ "7" := {| email := "ann@example.com"; telegram_username := "ann";
                                 subjects := ["Math"] |} ]};
     app_ai := None;
     app_user_data := {[ 7 := {| is_logged_in := Some true; tutor_subject := Some "Math";
                                 chat_session := Some (chat_history "Math") |} ]};
     app_chats := ∅;
     reg_conv := ∅; login_conv := ∅; tutor_conv := {[ 7 := T_TUTORING ]} |}.

Lemma done_ends_tutor_flow_at_tutoring :
  command_name this_bot (text (mkMessage ann "/done")) = Some "done" /\
  tutor_conv tutoring_app !! 7 = Some T_TUTORING /\
  tutor_conv (process_update lower_ascii this_bot tutoring_app (says "/done")) !! 7 = None /\
  app_user_data (process_update lower_ascii this_bot tutoring_app (says "/done")) !! 7
    = Some {| is_logged_in := Some true; tutor_subject := None; chat_session := None |}.
Proof.
  assert (Hcmd : command_name this_bot (text (mkMessage ann "/done")) = Some "done")
    by (vm_compute; reflexivity).
  assert (Hconv : tutor_conv tutoring_app !! user_id (from_user (mkMessage ann "/done"))
                  = Some T_TUTORING) by (vm_compute; reflexivity).
  assert (Hstate : T_TUTORING ∈ [T_SELECT_SUBJECT; T_ASK_QUESTION; T_TUTORING])
    by (right; right; left).
  destruct (done_ends_tutor_flow lower_ascii this_bot (mkMessage ann "/done") Hcmd
              tutoring_app T_TUTORING Hstate Hconv) as (_ & Hidle & Hsession & _).
  split; [exact Hcmd|]. split; [exact Hconv|]. split; [exact Hidle|]. exact Hsession.
Defined.

(** Ann's world with a profile that holds Math, logged out. *)
Definition math_world : World :=
  {| db := Some {[ "7" := {| email := "ann@example.com"; telegram_username := "ann";
                             subjects := ["Math"] |} ]};
     ai_model := None; user_data := empty_session; outbox := [] |}.

Lemma button_handler_verdict_on_quiz :
  match button_handler (CallbackUpdate (mkCallbackQuery ann "quiz_Math" 0)) math_world with
  | (Ok r, w') =>
      (r = END <-> tutor_subject (user_data w') = None) /\
      (r = T_ASK_QUESTION <-> tutor_subject (user_data w') <> None)
  | (Raise _, w') =>
      ("quiz" = "add" \/ "quiz" = "remove") /\
      db math_world ≫= (fun st => st !! caller_key (mkCallbackQuery ann "quiz_Math" 0)) = None
  end.
Proof.
  apply (button_handler_verdict (mkCallbackQuery ann "quiz_Math" 0) "quiz" "Math" math_world).
  - reflexivity.
  - right; right; right; left.
Defined.

(** The gate on Ann logged out (no [is_logged_in] in the session) and
    logged in: the add menu is refused to the first and run for the
    second. *)
Lemma login_required_gate_on_ann :
  is_logged_in (user_data math_world) = None /\
  login_required add_subject_command_body (says "/addsubject") math_world
    = (Ok END,
       {| db := db math_world; ai_model := None; user_data := empty_session;
          outbox := [SendMessage LOGIN_REQUIRED_TEXT ReplyKeyboardRemove] |}) /\
  login_required add_subject_command_body (says "/addsubject")
    (with_user_data math_world
       {| is_logged_in := Some true; tutor_subject := None; chat_session := None |})
    = add_subject_command_body (says "/addsubject")
        (with_user_data math_world
           {| is_logged_in := Some true; tutor_subject := None; chat_session := None |}).
Proof.
  split; [reflexivity|]. split.
  - exact (login_required_gate add_subject_command_body (mkMessage ann "/addsubject") math_world).
  - exact (login_required_gate add_subject_command_body (mkMessage ann "/addsubject")
             (with_user_data math_world
                {| is_logged_in := Some true; tutor_subject := None; chat_session := None |})).
Defined.

(** A service that opens a chat and fails on every message. *)
Definition failing_model : GenerativeModel :=
  {| generate_content := fun _ => Raise (ServiceError "unavailable");
     start_chat := fun history => Ok history;
     send_message := fun _ _ => Raise (ServiceError "unavailable") |}.

Definition asking_world : World :=
  {| db := Some ∅; ai_model := Some failing_model;
     user_data := {| is_logged_in := Some true; tutor_subject := Some "Math"; chat_session := None |};
     outbox := [] |}.

Lemma start_ai_conversation_failure_on_send :
  first_question_fails asking_world "What is a vector?" /\
  let '(r, w') := start_ai_conversation (says "What is a vector?") asking_world in
  r = Ok END /\
  outbox w' = outbox asking_world ++ [SendMessage TUTOR_INIT_TEXT NoMarkup;
                                      SendMessage TUTOR_FAILED_TEXT MAIN_MENU_MARKUP] /\
  user_data w' = user_data asking_world /\
  (chat_session (user_data asking_world) = None -> chat_session (user_data w') = None) /\
  db w' = db asking_world.
Proof.
  assert (Hfail : first_question_fails asking_world (text (mkMessage ann "What is a vector?")))
    by exact I.
  split; [exact Hfail|].
  exact (start_ai_conversation_failure (mkMessage ann "What is a vector?") asking_world Hfail).
Defined.

(** A service that takes the question and returns an answer without a
    text part: reading its text raises. *)
Definition unreadable_model : GenerativeModel :=
  {| generate_content := fun _ => Raise ValueError;
     start_chat := fun history => Ok history;
     send_message := fun chat question =>
       Ok ({| response_text := Raise ValueError |},
           chat ++ [ {| role := "user"; parts := [question] |} ]) |}.

Definition unreadable_world : World :=
  {| db := Some ∅; ai_model := Some unreadable_model;
     user_data := {| is_logged_in := Some true; tutor_subject := Some "Math"; chat_session := None |};
     outbox := [] |}.

Lemma start_ai_conversation_unread_answer_for_ann :
  chat_session (user_data unreadable_world) = None /\
  (start_ai_conversation (says "What is a vector?") unreadable_world).1 = Ok END /\
  outbox (start_ai_conversation (says "What is a vector?") unreadable_world).2
    = [SendMessage TUTOR_INIT_TEXT NoMarkup; SendMessage TUTOR_FAILED_TEXT MAIN_MENU_MARKUP] /\
  chat_session (user_data (start_ai_conversation (says "What is a vector?") unreadable_world).2)
    = Some (chat_history "Math" ++ [ {| role := "user"; parts := ["What is a vector?"] |} ]).
Proof.
  pose proof (start_ai_conversation_unread_answer (mkMessage ann "What is a vector?")
                unreadable_world unreadable_model (chat_history "Math")
                (chat_history "Math" ++ [ {| role := "user"; parts := ["What is a vector?"] |} ])
                {| response_text := Raise ValueError |} ValueError
                eq_refl eq_refl eq_refl eq_refl) as H.
  unfold says.
  destruct (start_ai_conversation (MessageUpdate (mkMessage ann "What is a vector?"))
              unreadable_world) as [r w'].
  destruct H as (Hr & Hout & Hchat & _). cbn [fst snd].
  split; [reflexivity|]. split; [exact Hr|]. split; [exact Hout | exact Hchat].
Defined.

(** Ann logged in, with a profile that has no subject yet. *)
Definition fresh_world : World :=
  {| db := Some {[ "7" := {| email := "ann@example.com"; telegram_username := "ann";
                             subjects := [] |} ]};
     ai_model := None;
     user_data := {| is_logged_in := Some true; tutor_subject := None; chat_session := None |};
     outbox := [] |}.

Lemma no_subjects_short_circuit_fresh :
  profile_subjects (db fresh_world) ann = [] /\
  start_tutor_session (says "/tutor") fresh_world
    = (Ok END, say fresh_world (SendMessage TUTOR_ADD_FIRST_TEXT MAIN_MENU_MARKUP)) /\
  quiz_me_command (says "/quizme") fresh_world
    = (Ok PNone, say fresh_world (SendMessage QUIZ_ADD_FIRST_TEXT MAIN_MENU_MARKUP)).
Proof.
  assert (Hnone : forall t, profile_subjects (db fresh_world) (from_user (mkMessage ann t)) = [])
    by (intros t; vm_compute; reflexivity).
  split; [exact (Hnone "")|]. split.
  - destruct (no_subjects_short_circuit (mkMessage ann "/tutor") fresh_world (Hnone _))
      as (_ & _ & Htutor & _). exact Htutor.
  - destruct (no_subjects_short_circuit (mkMessage ann "/quizme") fresh_world (Hnone _))
      as (_ & _ & _ & Hquiz & _). exact Hquiz.
Defined.

Definition math_world_in : World :=
  with_user_data math_world
    {| is_logged_in := Some true; tutor_subject := None; chat_session := None |}.

(** The world after Ann has opened the tutor menu and, in between, Bob
    has registered: the store differs, Ann's profile does not. *)
Definition math_world_later : World :=
  {| db := Some (<["8" := {| email := "bob@example.com"; telegram_username := "N/A";
                             subjects := [] |}]>
                   {[ "7" := {| email := "ann@example.com"; telegram_username := "ann";
                                subjects := ["Math"] |} ]});
     ai_model := None;
     user_data := user_data math_world_in;
     outbox := outbox (start_tutor_session_body (says "/tutor") math_world_in).2 |}.

Lemma tutor_selection_of_entry_math :
  db math_world_later <> db math_world_in /\
  exists s,
    cq_data (mkCallbackQuery ann "tutor_Math" 0) = "tutor_" +:+ s /\
    (button_handler (presses 0 "tutor_Math") math_world_later).1 = Ok T_ASK_QUESTION /\
    tutor_subject (user_data (button_handler (presses 0 "tutor_Math") math_world_later).2) = Some s /\
    s ∈ profile_subjects (db math_world_later) ann.
Proof.
  split.
  - intros Heq.
    assert (Hbob : db math_world_later ≫= (fun st => st !! "8")
                   = db math_world_in ≫= (fun st => st !! "8")) by (rewrite Heq; reflexivity).
    vm_compute in Hbob. discriminate Hbob.
  - destruct (tutor_selection_of_entry (mkMessage ann "/tutor") math_world_in
                (start_tutor_session_body (says "/tutor") math_world_in).2
                math_world_later (mkCallbackQuery ann "tutor_Math" 0))
      as (s & Hdata & Hret & Hsubj & _ & _ & _ & _ & Hin).
    + vm_compute. reflexivity.
    + exists "Which subject for tutoring?", (tutor_keyboard ["Math"]).
      split; [vm_compute; reflexivity|]. left.
    + reflexivity.
    + vm_compute. reflexivity.
    + exists s. auto.
Defined.

Lemma add_subject_twice_physics :
  exists r1 w1 r2 w2,
    button_handler (presses 0 "add_Physics") math_world = (Ok r1, w1) /\
    button_handler (presses 0 "add_Physics") w1 = (Ok r2, w2) /\
    db w2 = db w1 /\
    profile_subjects (db w2) ann = ArrayUnion ["Physics"] ["Math"] /\
    "Physics" ∈ profile_subjects (db w2) ann.
Proof.
  apply (add_subject_twice (mkCallbackQuery ann "add_Physics" 0) "Physics" math_world
           {[ "7" := {| email := "ann@example.com"; telegram_username := "ann";
                        subjects := ["Math"] |} ]}
           {| email := "ann@example.com"; telegram_username := "ann"; subjects := ["Math"] |}).
  - reflexivity.
  - reflexivity.
  - vm_compute. reflexivity.
Defined.

(** Ann registered and logged out: the store holds her profile, the
    session is empty. *)
Definition logged_out_app : App :=
  {| app_db := Some {[ "7" := {| email := "ann@example.com"; telegram_username := "ann";
                                 subjects := [] |} ]};
     app_ai := None; app_user_data := ∅; app_chats := ∅;
     reg_conv := ∅; login_conv := ∅; tutor_conv := ∅ |}.

(** Pressing an add option while logged out writes the store, as it does
    when logged in. *)
Lemma universal_dispatch_logged_out :
  universal_tag "add_Math" = true /\
  process_update lower_ascii this_bot (set_app_flag logged_out_app 7 (Some true)) (presses 0 "add_Math")
    = set_app_flag (process_update lower_ascii this_bot logged_out_app (presses 0 "add_Math")) 7 (Some true) /\
  profile_subjects (app_db (process_update lower_ascii this_bot logged_out_app (presses 0 "add_Math"))) ann
    = ["Math"].
Proof.
  assert (Htag : universal_tag (cq_data (mkCallbackQuery ann "add_Math" 0)) = true)
    by reflexivity.
  split; [exact Htag|]. split.
  - destruct (universal_dispatch_ignores_login lower_ascii this_bot logged_out_app
                (mkCallbackQuery ann "add_Math" 0) (Some true) Htag) as [_ Hrun].
    exact Hrun.
  - vm_compute. reflexivity.
Defined.

(** * Routing facts that complement the claims *)

Section Routing.

Variable str_lower : string -> string.
Variable bot_username : string.

(** The registration and login conversations hold only message filters:
    a callback query passes through them in every state. *)
Lemma account_conversations_skip_callback (q : CallbackQuery) (st : option pyval) :
  conversation_check bot_username (reg_handler str_lower) st (CallbackUpdate q) = None /\
  conversation_check bot_username (login_handler str_lower) st (CallbackUpdate q) = None.
Proof.
  destruct st as [s|]; split; try reflexivity;
    unfold conversation_check, state_handlers;
    cbn [states reg_handler login_handler find fst snd];
    case_bool_decide; reflexivity.
Qed.

Lemma tutor_conversation_callback (q : CallbackQuery) (st : option pyval) :
  conversation_check bot_username tutor_handler st (CallbackUpdate q) = None \/
  conversation_check bot_username tutor_handler st (CallbackUpdate q) = Some button_handler.
Proof.
  destruct st as [s|]; [|left; reflexivity].
  unfold conversation_check, state_handlers.
  cbn [states tutor_handler find fst snd].
  repeat case_bool_decide; unfold first_match;
    cbn [find fst snd check_filter existsb fallbacks tutor_handler];
    try (left; reflexivity).
  destruct (startswith "tutor_" (cq_data q)); cbn; [right | left]; reflexivity.
Qed.

(** No callback query reaches a gated handler: the only callback of the
    table that takes one is [button_handler]. *)
Lemma callback_reaches_button_handler (a : App) (q : CallbackQuery) :
  match select_handler bot_username (main_handlers str_lower) a (CallbackUpdate q) with
  | Some (_, cb) => cb = button_handler
  | None => True
  end.
Proof.
  unfold main_handlers. cbn [select_handler check_filter].
  destruct (account_conversations_skip_callback q
              (conv_states a Reg !! user_id (effective_user (CallbackUpdate q)))) as [-> _].
  destruct (account_conversations_skip_callback q
              (conv_states a Login !! user_id (effective_user (CallbackUpdate q)))) as [_ ->].
  destruct (tutor_conversation_callback q
              (conv_states a Tutor !! user_id (effective_user (CallbackUpdate q)))) as [-> | ->];
    [|reflexivity].
  destruct (existsb _ _); [reflexivity | exact I].
Qed.

(** The tutor command of a caller without subjects, outside a tutor
    conversation: the entry point runs and the conversation stays idle. *)
Lemma tutor_entry_without_subjects (a : App) (m : Message) :
  command_name bot_username (text m) = Some "tutor" ->
  tutor_conv a !! user_id (from_user m) = None ->
  profile_subjects (app_db a) (from_user m) = [] ->
  select_handler bot_username (main_handlers str_lower) a (MessageUpdate m)
    = Some (Some Tutor, start_tutor_session) /\
  tutor_conv (process_update str_lower bot_username a (MessageUpdate m)) !! user_id (from_user m) = None /\
  app_chats (process_update str_lower bot_username a (MessageUpdate m)) !! user_id (from_user m)
    = Some (default [] (app_chats a !! user_id (from_user m))
            ++ [if truthy (is_logged_in (default empty_session
                                           (app_user_data a !! user_id (from_user m))))
                then SendMessage TUTOR_ADD_FIRST_TEXT MAIN_MENU_MARKUP
                else SendMessage LOGIN_REQUIRED_TEXT ReplyKeyboardRemove]).
Proof.
  intros Hcmd Hconv Hnone.
  assert (Htext : check_filter bot_username TextNotCommand (MessageUpdate m) = false).
  { simpl. rewrite (command_is_command _ _ _ Hcmd). apply andb_false_r. }
  assert (Hname : forall name, check_filter bot_username (Command name) (MessageUpdate m)
                               = bool_decide ("tutor" = name)).
  { intros name. simpl. rewrite Hcmd. apply bool_decide_ext. split; congruence. }
  assert (Hreg : forall st, conversation_check bot_username (reg_handler str_lower) st (MessageUpdate m) = None).
  { intros [s|]; unfold conversation_check, first_match, state_handlers, reg_handler;
      cbn [entry_points states fallbacks find fst snd];
      [destruct (bool_decide (GET_EMAIL_REG = s))|];
      cbn [find fst snd]; rewrite ?Htext, ?Hname; cbn [find fst snd]; rewrite ?Hname;
      reflexivity. }
  assert (Hlogin : forall st, conversation_check bot_username (login_handler str_lower) st (MessageUpdate m) = None).
  { intros [s|]; unfold conversation_check, first_match, state_handlers, login_handler;
      cbn [entry_points states fallbacks find fst snd];
      [destruct (bool_decide (CHECK_EMAIL_LOGIN = s))|];
      cbn [find fst snd]; rewrite ?Htext, ?Hname; cbn [find fst snd]; rewrite ?Hname;
      reflexivity. }
  assert (Hsel : select_handler bot_username (main_handlers str_lower) a (MessageUpdate m)
                 = Some (Some Tutor, start_tutor_session)).
  { unfold main_handlers. cbn [select_handler]. rewrite !Hname.
    rewrite !bool_decide_eq_false_2 by discriminate.
    rewrite Hreg, Hlogin. cbn [conv_states effective_user]. rewrite Hconv.
    unfold conversation_check, first_match. cbn [entry_points tutor_handler find fst].
    rewrite Hname, bool_decide_eq_true_2 by reflexivity. reflexivity. }
  split; [exact Hsel|].
  unfold process_update. rewrite Hsel. cbn [effective_user conv_states].
  unfold start_tutor_session. rewrite login_required_any.
  rewrite start_tutor_session_body_run.
  change (db (world_of a (user_id (from_user m)))) with (app_db a). rewrite Hnone, Hconv.
  change (user_data (world_of a (user_id (from_user m))))
    with (default empty_session (app_user_data a !! user_id (from_user m))).
  destruct (truthy _); unfold update_state;
    rewrite bool_decide_eq_true_2 by reflexivity;
    unfold set_conv, set_world, say; cbn;
    rewrite lookup_delete_eq, lookup_insert_eq; auto.
Qed.

End Routing.

(** ** Commands and the bot they are addressed to *)

(** A command is read whatever its case and when it names this bot; a
    command that names another bot is no command of the table, though it
    is still no plain text either. *)
Example commands_and_mentions :
  command_name this_bot "/done" = Some "done" /\
  command_name this_bot "/DONE now" = Some "done" /\
  command_name this_bot "/done@IGCSE_Tutor_Bot" = Some "done" /\
  command_name this_bot "/done@other_bot" = None /\
  check_filter this_bot TextNotCommand (says "/done@other_bot") = false /\
  process_update lower_ascii this_bot tutoring_app (says "/done@other_bot") = tutoring_app.
Proof. vm_compute. auto 10. Qed.

(** ** The scenarios of the specification *)

(** Ann registers and logs in, opens the add menu twice (messages 4 and
    5) and adds Math from both: the second addition changes nothing. *)
Example scenario_add_twice :
  let once := run_updates (initial_app None)
    [ says "/register"; says "a@b.com"; says "/login"; says "A@B.com";
      says "➕ Add Subject"; says "➕ Add Subject"; presses 4 "add_Math" ] in
  (app_db once ≫= fun st => st !! "7")
    = Some {| email := "a@b.com"; telegram_username := "ann"; subjects := ["Math"] |} /\
  possible_update once (presses 5 "add_Math") = true /\
  app_db (process_update lower_ascii this_bot once (presses 5 "add_Math")) = app_db once.
Proof. vm_compute. auto. Qed.

(** Removing a subject that the profile does not hold leaves the
    subjects as they are; removing the one it holds empties them. *)
Example scenario_remove :
  profile_subjects (db (button_handler (presses 0 "remove_Physics") math_world).2) ann = ["Math"] /\
  profile_subjects (db (button_handler (presses 0 "remove_Math") math_world).2) ann = [].
Proof. vm_compute. auto. Qed.

(** Login with an identifier that has no profile: the failure message,
    and the session stays logged out. *)
Example scenario_login_unregistered :
  let a := run_updates (initial_app None) [ says "/login"; says "a@b.com" ] in
  (is_logged_in <$> app_user_data a !! 7) = Some None /\
  last (default [] (app_chats a !! 7)) = Some (SendMessage LOGIN_FAILED_TEXT NoMarkup) /\
  login_conv a !! 7 = None.
Proof. vm_compute. auto. Qed.

(** The gate on a logged-out caller: the wrapped command is not run. *)
Example scenario_gate_rejects :
  add_subject_command (says "/addsubject") math_world
  = (Ok END, say math_world (SendMessage LOGIN_REQUIRED_TEXT ReplyKeyboardRemove)).
Proof. reflexivity. Qed.

(** * Further properties of the handlers *)

Section SessionLifecycle.

Variable str_lower : string -> string.
Variable bot_username : string.

Lemma check_email_and_login_run (m : Message) (w : World) :
  check_email_and_login str_lower (MessageUpdate m) w =
    match db w ≫= (fun st => st !! py_str_int (user_id (from_user m))) with
    | Some d =>
        if bool_decide (str_lower (text m) = email d)
        then (Ok END, say (with_user_data w (set_is_logged_in (user_data w) true))
                          (SendMessage LOGIN_SUCCESSFUL_TEXT MAIN_MENU_MARKUP))
        else (Ok END, say w (SendMessage LOGIN_FAILED_TEXT NoMarkup))
    | None => (Ok END, say w (SendMessage LOGIN_FAILED_TEXT NoMarkup))
    end.
Proof.
  unfold check_email_and_login. run_py.
  destruct (db w) as [st|]; simpl; [|reflexivity].
  destruct (st !! py_str_int (user_id (from_user m))) as [d|]; simpl; [|reflexivity].
  case_bool_decide; reflexivity.
Qed.

Lemma get_email_and_register_run (m : Message) (w : World) :
  get_email_and_register str_lower (MessageUpdate m) w =
    match db w with
    | Some st =>
        if 0 <? Z.of_nat (length (where_email st (str_lower (text m))))
        then (Ok END, say w (SendMessage ALREADY_REGISTERED_TEXT NoMarkup))
        else (Ok END, say (with_db w (Some (<[py_str_int (user_id (from_user m)) :=
                                               new_profile str_lower m]> st)))
                          (SendMessage REGISTRATION_COMPLETE_TEXT NoMarkup))
    | None => (Ok END, say w (SendMessage COULD_NOT_SAVE_TEXT NoMarkup))
    end.
Proof.
  unfold get_email_and_register. run_py.
  destruct (db w) as [st|] eqn:Hdb; simpl.
  - destruct (0 <? Z.of_nat (length (where_email st (str_lower (text m))))); [reflexivity|].
    rewrite Hdb. reflexivity.
  - rewrite Hdb. reflexivity.
Qed.

(** X1: [logout_command] empties the whole session, not only the login
    flag, and leaves the store alone; after it the gate turns away every
    wrapped operation. *)
Theorem logout_closes_gate (func : Handler) (m m' : Message) (w : World) :
  logout_command (MessageUpdate m) w
    = (Ok PNone,
       say (with_user_data w empty_session)
           (SendMessage "You have been successfully logged out. Use /login to access your account again."
                        ReplyKeyboardRemove)) /\
  login_required func (MessageUpdate m') (logout_command (MessageUpdate m) w).2
    = (Ok END, say (logout_command (MessageUpdate m) w).2
                   (SendMessage LOGIN_REQUIRED_TEXT ReplyKeyboardRemove)).
Proof.
  split; [reflexivity|]. rewrite login_required_any. reflexivity.
Qed.

(** X2: after a login that matches, the gate hands every update to the
    wrapped operation, and stays open until the flag is removed; the
    tutor subject and the chat handle of the session are not touched by
    the login. *)
Theorem login_opens_gate (m : Message) (w : World) (func : Handler) (u : Update) :
  login_matches str_lower w m ->
  let w1 := (check_email_and_login str_lower (MessageUpdate m) w).2 in
  login_required func u w1 = func u w1 /\
  tutor_subject (user_data w1) = tutor_subject (user_data w) /\
  chat_session (user_data w1) = chat_session (user_data w).
Proof.
  intros (st & d & Hdb & Hd & He) w1. subst w1.
  rewrite check_email_and_login_run, Hdb. simpl. rewrite Hd.
  rewrite bool_decide_eq_true_2 by congruence.
  rewrite login_required_any. simpl. auto.
Qed.

(** No two profiles hold the same email. *)
Definition emails_unique (st : gmap string Doc) : Prop :=
  forall k1 k2 d1 d2, st !! k1 = Some d1 -> st !! k2 = Some d2 -> email d1 = email d2 -> k1 = k2.

(** X3: registration keeps emails unique: whatever is submitted, and by
    whom, a store in which no two profiles share an email is still such
    a store afterwards (the caller's former profile, if any, is
    replaced, not duplicated). *)
Theorem registration_keeps_emails_unique (m : Message) (w : World) (st : gmap string Doc) :
  db w = Some st ->
  emails_unique st ->
  exists st', db (get_email_and_register str_lower (MessageUpdate m) w).2 = Some st'
              /\ emails_unique st'.
Proof.
  intros Hdb Huniq. rewrite get_email_and_register_run, Hdb.
  destruct (0 <? Z.of_nat (length (where_email st (str_lower (text m))))) eqn:Hq.
  - exists st. split; [exact Hdb | exact Huniq].
  - eexists. split; [reflexivity|].
    assert (Hfree : forall k d, st !! k = Some d -> email d <> str_lower (text m)).
    { intros k d Hk He. assert (Hr : email_registered (Some st) (str_lower (text m)))
        by (exists st, k, d; auto).
      apply where_email_found in Hr. congruence. }
    intros k1 k2 d1 d2 H1 H2 He.
    destruct (decide (k1 = k2)) as [|Hne]; [assumption|exfalso].
    destruct (decide (py_str_int (user_id (from_user m)) = k1)) as [<-|Hk1].
    + rewrite lookup_insert_eq in H1. injection H1 as <-.
      rewrite lookup_insert_ne in H2 by assumption.
      apply (Hfree k2 d2 H2). symmetry. exact He.
    + rewrite lookup_insert_ne in H1 by assumption.
      destruct (decide (py_str_int (user_id (from_user m)) = k2)) as [<-|Hk2].
      * rewrite lookup_insert_eq in H2. injection H2 as <-.
        apply (Hfree k1 d1 H1). exact He.
      * rewrite lookup_insert_ne in H2 by assumption.
        apply Hne. exact (Huniq k1 k2 d1 d2 H1 H2 He).
Qed.

(** X4: registration followed by login.  When the store is there and
    the email is free, the caller who registered logs in with any input
    that lower-cases to the same text: afterwards [is_logged_in] is
    [True] and the reply is the success. *)
Theorem register_then_login (m m' : Message) (w : World) (st : gmap string Doc) :
  db w = Some st ->
  ~ email_registered (Some st) (str_lower (text m)) ->
  from_user m' = from_user m ->
  str_lower (text m') = str_lower (text m) ->
  let w1 := (get_email_and_register str_lower (MessageUpdate m) w).2 in
  let '(r, w2) := check_email_and_login str_lower (MessageUpdate m') w1 in
  r = Ok END /\
  is_logged_in (user_data w2) = Some true /\
  outbox w2 = outbox w1 ++ [SendMessage LOGIN_SUCCESSFUL_TEXT MAIN_MENU_MARKUP] /\
  db w2 = db w1.
Proof.
  intros Hdb Hfree Huser Htext w1. subst w1.
  rewrite get_email_and_register_run, Hdb.
  destruct (0 <? Z.of_nat (length (where_email st (str_lower (text m))))) eqn:Hq.
  { exfalso. apply Hfree. apply where_email_found. exact Hq. }
  rewrite check_email_and_login_run. cbn [snd db say with_outbox with_db mbind option_bind].
  rewrite Huser, lookup_insert_eq. cbn [email new_profile].
  rewrite bool_decide_eq_true_2 by exact Htext. simpl. auto.
Qed.

End SessionLifecycle.

Section Subjects.

(** ** [ArrayRemove] and [ArrayUnion] *)

Lemma ArrayRemove_elem (xs l : list string) (y : string) :
  y ∈ ArrayRemove xs l <-> y ∈ l /\ y ∉ xs.
Proof. unfold ArrayRemove. rewrite list_elem_of_filter. tauto. Qed.

Lemma ArrayRemove_absent (xs l : list string) :
  (forall x, x ∈ xs -> x ∉ l) -> ArrayRemove xs l = l.
Proof.
  unfold ArrayRemove. intros Habs. induction l as [|y l IH]; [reflexivity|].
  rewrite filter_cons_True.
  - f_equal. apply IH. intros x Hx Hin. apply (Habs x Hx). right. exact Hin.
  - intros Hy. apply (Habs y Hy). left.
Qed.

Lemma ArrayUnion_fresh (x : string) (l : list string) :
  x ∉ l -> ArrayUnion [x] l = l ++ [x].
Proof. intros Hx. unfold ArrayUnion. simpl. rewrite bool_decide_eq_false_2 by exact Hx. reflexivity. Qed.

Lemma ArrayRemove_ArrayUnion (x : string) (l : list string) :
  x ∉ l -> ArrayRemove [x] (ArrayUnion [x] l) = l.
Proof.
  intros Hx. rewrite ArrayUnion_fresh by exact Hx. unfold ArrayRemove.
  rewrite filter_app. change (filter (fun y => y ∉ [x]) l) with (ArrayRemove [x] l).
  rewrite ArrayRemove_absent.
  - rewrite filter_cons_False, filter_nil, app_nil_r; [reflexivity|].
    intros Hn. apply Hn. left.
  - intros y Hy. apply list_elem_of_singleton in Hy as ->. exact Hx.
Qed.

Lemma ArrayUnion_NoDup (xs l : list string) : NoDup l -> NoDup (ArrayUnion xs l).
Proof.
  unfold ArrayUnion. revert l. induction xs as [|x xs IH]; intros l Hl; simpl; [exact Hl|].
  apply IH. case_bool_decide as Hx; [exact Hl|].
  apply NoDup_app. split; [exact Hl|]. split.
  - intros y Hy Hy'. apply list_elem_of_singleton in Hy' as ->. contradiction.
  - apply NoDup_singleton.
Qed.

Lemma ArrayUnion_elem (xs l : list string) (y : string) :
  y ∈ ArrayUnion xs l <-> y ∈ l \/ y ∈ xs.
Proof.
  unfold ArrayUnion. revert l. induction xs as [|x xs IH]; intros l; simpl.
  - split; [auto|]. intros [H|H]; [exact H | inversion H].
  - rewrite IH. case_bool_decide as Hx.
    + rewrite elem_of_cons. split; [tauto|]. intros [H|[->|H]]; auto.
    + rewrite elem_of_app, list_elem_of_singleton, elem_of_cons. tauto.
Qed.

Lemma ArrayRemove_NoDup (xs l : list string) : NoDup l -> NoDup (ArrayRemove xs l).
Proof. unfold ArrayRemove. apply NoDup_filter. Qed.

Lemma set_subjects_same (d : Doc) : set_subjects d (subjects d) = d.
Proof. destruct d; reflexivity. Qed.

(** ** Removing *)

(** X5: the remove branch on a caller with a profile.  Afterwards the
    subject is in the profile no more, in no position; every other
    subject is there exactly if it was; the email and the username are
    what they were. *)
Theorem remove_subject_effect (q : CallbackQuery) (data : string) (w : World)
    (st : gmap string Doc) (d : Doc) :
  split_once "_" (cq_data q) = Some ("remove", data) ->
  db w = Some st ->
  st !! caller_key q = Some d ->
  exists r w' d',
    button_handler (CallbackUpdate q) w = (Ok r, w') /\
    db w' = Some (<[caller_key q := d']> st) /\
    email d' = email d /\ telegram_username d' = telegram_username d /\
    (data ∉ subjects d') /\
    (forall y, y <> data -> (y ∈ subjects d' <-> y ∈ subjects d)).
Proof.
  intros Hsplit Hdb Hd. rewrite (button_remove q data w Hsplit), Hdb, Hd.
  cbv zeta. eexists _, _, (set_subjects d (ArrayRemove [data] (subjects d))).
  split; [reflexivity|]. split; [reflexivity|]. split; [reflexivity|]. split; [reflexivity|].
  cbn [subjects set_subjects]. split.
  - rewrite ArrayRemove_elem. intros [_ Hn]. apply Hn. left.
  - intros y Hy. rewrite ArrayRemove_elem, list_elem_of_singleton. tauto.
Qed.

(** X6: removing a subject that the profile does not hold changes
    nothing in the store, and raises nothing. *)
Theorem remove_absent_subject (q : CallbackQuery) (data : string) (w : World)
    (st : gmap string Doc) (d : Doc) :
  split_once "_" (cq_data q) = Some ("remove", data) ->
  db w = Some st ->
  st !! caller_key q = Some d ->
  data ∉ subjects d ->
  exists r w', button_handler (CallbackUpdate q) w = (Ok r, w') /\ db w' = db w.
Proof.
  intros Hsplit Hdb Hd Habs. rewrite (button_remove q data w Hsplit), Hdb, Hd.
  cbv zeta. eexists _, _. split; [reflexivity|]. cbn [db say with_outbox with_db].
  rewrite ArrayRemove_absent.
  - rewrite set_subjects_same, insert_id by exact Hd. reflexivity.
  - intros x Hx. apply list_elem_of_singleton in Hx as ->. exact Habs.
Qed.

(** X7: adding a subject that the profile does not hold and removing it
    again gives back the store as it was. *)
Theorem add_then_remove (qa qr : CallbackQuery) (data : string) (w : World)
    (st : gmap string Doc) (d : Doc) :
  split_once "_" (cq_data qa) = Some ("add", data) ->
  split_once "_" (cq_data qr) = Some ("remove", data) ->
  cq_from_user qr = cq_from_user qa ->
  db w = Some st ->
  st !! caller_key qa = Some d ->
  data ∉ subjects d ->
  exists r1 w1 r2 w2,
    button_handler (CallbackUpdate qa) w = (Ok r1, w1) /\
    profile_subjects (db w1) (cq_from_user qa) = subjects d ++ [data] /\
    button_handler (CallbackUpdate qr) w1 = (Ok r2, w2) /\
    db w2 = db w.
Proof.
  intros Ha Hr Huser Hdb Hd Habs.
  assert (Hkey : caller_key qr = caller_key qa) by (unfold caller_key; rewrite Huser; reflexivity).
  pose proof (button_add qa data w Ha) as H1. rewrite Hdb, Hd in H1.
  match type of H1 with _ = (_, ?w1) => pose proof (button_remove qr data w1 Hr) as H2 end.
  cbn [db say with_outbox with_db] in H2. rewrite Hkey, lookup_insert_eq in H2.
  cbv zeta in H2. cbn [subjects set_subjects] in H2.
  rewrite ArrayRemove_ArrayUnion in H2 by exact Habs.
  eexists _, _, _, _. split; [exact H1|]. split.
  - unfold profile_subjects. cbn [db say with_outbox with_db mbind option_bind].
    fold (caller_key qa). rewrite lookup_insert_eq. cbn [subjects set_subjects].
    apply ArrayUnion_fresh. exact Habs.
  - split; [exact H2|]. cbn [db say with_outbox with_db].
    rewrite insert_insert_eq.
    replace (set_subjects (set_subjects d (ArrayUnion [data] (subjects d))) (subjects d))
      with d by (destruct d; reflexivity).
    rewrite insert_id by exact Hd. symmetry. exact Hdb.
Qed.

End Subjects.

Section Menus.

(** The callback data of the buttons of the last message sent. *)
Definition last_keyboard (w : World) : list string :=
  match last (outbox w) with
  | Some (SendMessage _ mk) => markup_buttons mk
  | _ => []
  end.

Lemma add_subject_command_body_run (m : Message) (w : World) :
  add_subject_command_body (MessageUpdate m) w =
    match filter (fun s => s ∉ profile_subjects (db w) (from_user m)) AVAILABLE_SUBJECTS with
    | [] => (Ok PNone, say w (SendMessage "You've added all available subjects!" MAIN_MENU_MARKUP))
    | l => (Ok PNone,
            say w (SendMessage "Choose a subject to add:"
                     (InlineKeyboardMarkup (map (fun s => [mkButton s ("add_" +:+ s)]) l))))
    end.
Proof.
  unfold add_subject_command_body. run_py. rewrite get_user_subjects_run.
  destruct (filter _ AVAILABLE_SUBJECTS); reflexivity.
Qed.

Lemma add_keyboard_buttons (l : list string) :
  map callback_data (concat (map (fun s => [mkButton s ("add_" +:+ s)]) l))
  = map (fun s => "add_" +:+ s) l.
Proof. induction l as [|s l IH]; simpl; [reflexivity|]. f_equal. exact IH. Qed.

Lemma remove_keyboard_buttons (l : list string) (data : string) :
  data ∈ map callback_data (concat (remove_keyboard l)) ->
  data = "n_" \/ exists s, s ∈ l /\ data = "remove_" +:+ s.
Proof.
  induction l as [|s l IH]; simpl; [intros H; inversion H|].
  rewrite !elem_of_cons. intros [->|[->|H]]; [left; reflexivity | right | ].
  - exists s. split; [left | reflexivity].
  - destruct (IH H) as [->|(s' & Hs' & ->)]; [left; reflexivity | right].
    exists s'. split; [right; exact Hs' | reflexivity].
Qed.

(** X8: what the add menu offers.  A logged-in caller is shown a button
    [add_s] exactly for the catalog subjects [s] that the profile does
    not hold, and is told that everything is added exactly when the
    profile holds the whole catalog.  The command writes neither the
    store nor the session. *)
Theorem add_menu_offers (m : Message) (w : World) :
  truthy (is_logged_in (user_data w)) = true ->
  exists body mk,
    add_subject_command (MessageUpdate m) w = (Ok PNone, say w (SendMessage body mk)) /\
    (forall s, "add_" +:+ s ∈ markup_buttons mk
               <-> s ∈ AVAILABLE_SUBJECTS /\ s ∉ profile_subjects (db w) (from_user m)) /\
    (mk = MAIN_MENU_MARKUP
     <-> forall s, s ∈ AVAILABLE_SUBJECTS -> s ∈ profile_subjects (db w) (from_user m)).
Proof.
  intros Hin. unfold add_subject_command.
  rewrite login_required_any, Hin, add_subject_command_body_run.
  set (cur := profile_subjects (db w) (from_user m)).
  assert (Hf : forall s, s ∈ filter (fun s => s ∉ cur) AVAILABLE_SUBJECTS
                         <-> s ∈ AVAILABLE_SUBJECTS /\ s ∉ cur).
  { intros s. rewrite list_elem_of_filter. tauto. }
  destruct (filter (fun s => s ∉ cur) AVAILABLE_SUBJECTS) as [|s0 l] eqn:Hl.
  - eexists _, _. split; [reflexivity|]. split.
    + intros s. simpl. rewrite <- Hf. split; intros H; inversion H.
    + split; [|reflexivity]. intros _ s Hs.
      destruct (decide (s ∈ cur)) as [|Hn]; [assumption|].
      exfalso. assert (H : s ∈ @nil string) by (apply Hf; auto). inversion H.
  - eexists _, _. split; [reflexivity|]. split.
    + intros s. rewrite <- Hf. unfold markup_buttons. rewrite add_keyboard_buttons.
      rewrite list_elem_of_fmap. split.
      * intros (s' & Heq & Hs'). cbv [String.append] in Heq. injection Heq as ->. exact Hs'.
      * intros Hs. exists s. auto.
    + split; [discriminate|]. intros Hall. exfalso.
      assert (Hs0 : s0 ∈ s0 :: l) by left. apply Hf in Hs0 as [Hc Hn]. auto.
Qed.

(** X9: from the add menu to the store.  When a logged-in caller with a
    profile presses any button of the menu that [add_subject_command]
    just sent, the handler succeeds and the profile's subjects are the
    former ones followed by one catalog subject that was not among
    them. *)
Theorem add_menu_press (m : Message) (w : World) (q : CallbackQuery)
    (st : gmap string Doc) (d : Doc) :
  truthy (is_logged_in (user_data w)) = true ->
  db w = Some st ->
  st !! py_str_int (user_id (from_user m)) = Some d ->
  cq_from_user q = from_user m ->
  cq_data q ∈ last_keyboard (add_subject_command (MessageUpdate m) w).2 ->
  exists s r w',
    s ∈ AVAILABLE_SUBJECTS /\ (s ∉ subjects d) /\
    button_handler (CallbackUpdate q) (add_subject_command (MessageUpdate m) w).2 = (Ok r, w') /\
    db w' = Some (<[py_str_int (user_id (from_user m)) := set_subjects d (subjects d ++ [s])]> st).
Proof.
  intros Hin Hdb Hd Huser Hpress. unfold add_subject_command in *.
  rewrite login_required_any, Hin, add_subject_command_body_run in *.
  assert (Hcur : profile_subjects (db w) (from_user m) = subjects d).
  { unfold profile_subjects. rewrite Hdb. simpl. rewrite Hd. reflexivity. }
  rewrite Hcur in *.
  destruct (filter (fun s => s ∉ subjects d) AVAILABLE_SUBJECTS) as [|s0 l] eqn:Hl.
  { unfold last_keyboard, say, with_outbox in Hpress. cbn [snd outbox] in Hpress.
    rewrite last_snoc in Hpress. inversion Hpress. }
  unfold last_keyboard, say, with_outbox in Hpress. cbn [snd outbox] in Hpress.
  rewrite last_snoc in Hpress. unfold markup_buttons in Hpress.
  rewrite add_keyboard_buttons in Hpress.
  apply list_elem_of_fmap in Hpress as (s & Hdata & Hs).
  rewrite <- Hl in Hs. apply list_elem_of_filter in Hs as [Hnew Hcat].
  assert (Hsplit : split_once "_" (cq_data q) = Some ("add", s)) by (rewrite Hdata; reflexivity).
  exists s. rewrite (button_add q s _ Hsplit). cbn [snd db say with_outbox].
  unfold caller_key. rewrite Huser, Hdb, Hd.
  eexists _, _. split; [exact Hcat|]. split; [exact Hnew|]. split; [reflexivity|].
  cbn [db say with_outbox with_db]. rewrite ArrayUnion_fresh by exact Hnew. reflexivity.
Qed.

Lemma my_subjects_command_body_run (m : Message) (w : World) :
  my_subjects_command_body (MessageUpdate m) w =
    match profile_subjects (db w) (from_user m) with
    | [] => (Ok PNone, say w (SendMessage "You have no subjects yet." MAIN_MENU_MARKUP))
    | l => (Ok PNone, say w (SendMessage "Your subjects:" (InlineKeyboardMarkup (remove_keyboard l))))
    end.
Proof.
  unfold my_subjects_command_body. run_py. rewrite get_user_subjects_run.
  destruct (profile_subjects (db w) (from_user m)); reflexivity.
Qed.

(** X10: from the subject list to the store.  Each button of the list
    that [my_subjects_command] just sent is either a label ([n_]) or
    the removal of a subject the profile holds; pressing a removal
    succeeds and leaves a profile without that subject. *)
Theorem my_subjects_press (m : Message) (w : World) (q : CallbackQuery)
    (st : gmap string Doc) (d : Doc) :
  truthy (is_logged_in (user_data w)) = true ->
  db w = Some st ->
  st !! py_str_int (user_id (from_user m)) = Some d ->
  cq_from_user q = from_user m ->
  cq_data q ∈ last_keyboard (my_subjects_command (MessageUpdate m) w).2 ->
  cq_data q = "n_" \/
  exists s r w',
    s ∈ subjects d /\
    button_handler (CallbackUpdate q) (my_subjects_command (MessageUpdate m) w).2 = (Ok r, w') /\
    db w' = Some (<[py_str_int (user_id (from_user m)) :=
                     set_subjects d (ArrayRemove [s] (subjects d))]> st) /\
    s ∉ profile_subjects (db w') (from_user m).
Proof.
  intros Hin Hdb Hd Huser Hpress. unfold my_subjects_command in *.
  rewrite login_required_any, Hin, my_subjects_command_body_run in *.
  assert (Hcur : profile_subjects (db w) (from_user m) = subjects d).
  { unfold profile_subjects. rewrite Hdb. simpl. rewrite Hd. reflexivity. }
  rewrite Hcur in *.
  destruct (subjects d) as [|s0 l] eqn:Hl.
  { unfold last_keyboard, say, with_outbox in Hpress. cbn [snd outbox] in Hpress.
    rewrite last_snoc in Hpress. inversion Hpress. }
  unfold last_keyboard, say, with_outbox in Hpress. cbn [snd outbox] in Hpress.
  rewrite last_snoc in Hpress. unfold markup_buttons in Hpress.
  apply remove_keyboard_buttons in Hpress as [Hn | (s & Hs & Hdata)]; [left; exact Hn | right].
  assert (Hsplit : split_once "_" (cq_data q) = Some ("remove", s)) by (rewrite Hdata; reflexivity).
  exists s. rewrite (button_remove q s _ Hsplit). cbn [snd db say with_outbox].
  unfold caller_key. rewrite Huser, Hdb, Hd. cbv zeta.
  eexists _, _. split; [exact Hs|]. split; [reflexivity|].
  cbn [db say with_outbox with_db]. rewrite Hl. split; [reflexivity|].
  unfold profile_subjects. cbn [mbind option_bind]. rewrite lookup_insert_eq.
  cbn [subjects set_subjects]. rewrite ArrayRemove_elem. intros [_ Hn]. apply Hn. left.
Qed.

(** X11: quiz generation never raises and writes nothing.  Without a
    model the text is the unavailable notice; when the service raises it
    is the error notice; otherwise it is the service's text. *)
Theorem generate_quiz_never_raises (subject_name : string) (w : World) :
  exists t,
    generate_quiz_from_ai subject_name w = (Ok t, w) /\
    match ai_model w with
    | None => t = "Sorry, the AI service is currently unavailable."
    | Some model =>
        match generate_content model (quiz_prompt subject_name) with
        | Ok answer => t = answer
        | Raise _ =>
            t = "Sorry, an error occurred while creating your quiz. Please try again later."
        end
    end.
Proof.
  unfold generate_quiz_from_ai. run_py.
  destruct (ai_model w) as [model|]; simpl; [|eauto].
  destruct (generate_content model (quiz_prompt subject_name)); simpl; eauto.
Qed.

End Menus.

(** * What one step of the application can do *)

Section Table.

Variable str_lower : string -> string.
Variable bot_username : string.

(** ** The callbacks of a handler table *)

Definition conversation_callbacks (c : ConversationHandler) : list Handler :=
  map snd (entry_points c)
  ++ concat (map (fun sh : pyval * list (Filter * Handler) => map snd sh.2) (states c))
  ++ map snd (fallbacks c).

Definition table_callbacks (hs : list AppHandler) : list Handler :=
  concat (map (fun h => match h with
                        | Plain _ cb => [cb]
                        | Conversation _ c => conversation_callbacks c
                        end) hs).

Lemma first_match_in (hs : list (Filter * Handler)) (u : Update) (cb : Handler) :
  first_match bot_username hs u = Some cb -> cb ∈ map snd hs.
Proof.
  unfold first_match. induction hs as [|[f h] hs IH]; simpl; [discriminate|].
  destruct (check_filter bot_username f u); simpl.
  - intros [= <-]. left.
  - intros H. right. apply IH. exact H.
Qed.

Lemma state_handlers_in (c : ConversationHandler) (s : pyval) (cb : Handler) :
  cb ∈ map snd (state_handlers c s) ->
  cb ∈ concat (map (fun sh : pyval * list (Filter * Handler) => map snd sh.2) (states c)).
Proof.
  unfold state_handlers. induction (states c) as [|[s' hs] l IH]; simpl.
  - intros H. inversion H.
  - case_bool_decide as Heq; simpl; intros Hin; apply elem_of_app; [left; exact Hin | right; auto].
Qed.

Lemma conversation_check_in (c : ConversationHandler) (st : option pyval) (u : Update)
    (cb : Handler) :
  conversation_check bot_username c st u = Some cb -> cb ∈ conversation_callbacks c.
Proof.
  unfold conversation_check, conversation_callbacks. destruct st as [s|].
  - destruct (first_match bot_username (state_handlers c s) u) as [h|] eqn:Hs.
    + intros [= <-]. apply elem_of_app. right. apply elem_of_app. left.
      apply (state_handlers_in c s). apply (first_match_in _ u). exact Hs.
    + intros H. apply elem_of_app. right. apply elem_of_app. right.
      apply (first_match_in _ u). exact H.
  - intros H. apply elem_of_app. left. apply (first_match_in _ u). exact H.
Qed.

Lemma select_handler_in (hs : list AppHandler) (a : App) (u : Update)
    (c : option conv_id) (cb : Handler) :
  select_handler bot_username hs a u = Some (c, cb) -> cb ∈ table_callbacks hs.
Proof.
  unfold table_callbacks. induction hs as [|[f h | id conv] hs IH]; simpl; [discriminate| |].
  - destruct (check_filter bot_username f u).
    + intros [= _ <-]. left.
    + intros H. right. apply IH. exact H.
  - destruct (conversation_check bot_username conv _ u) as [h|] eqn:Hc.
    + intros [= _ <-]. apply elem_of_app. left. apply (conversation_check_in _ _ _ _ Hc).
    + intros H. apply elem_of_app. right. apply IH. exact H.
Qed.

(** ** The effect of one callback *)

(** A button is harmless for the store when the subject it would add is
    a catalog subject. *)
Definition add_payload_ok (data : string) : Prop :=
  forall s, split_once "_" data = Some ("add", s) -> s ∈ AVAILABLE_SUBJECTS.

Definition call_markup (c : ApiCall) : Markup :=
  match c with
  | AnswerCallbackQuery => NoMarkup
  | SendMessage _ mk => mk
  | EditMessageText _ _ mk => mk
  end.

Definition call_ok (c : ApiCall) : Prop :=
  forall data, data ∈ markup_buttons (call_markup c) -> add_payload_ok data.

(** How a callback may change the store: not at all, by the write of a
    registration, or by a subject update of the caller's document. *)
Inductive store_step (u : Update) (o : option (gmap string Doc))
  : option (gmap string Doc) -> Prop :=
  | store_same : store_step u o o
  | store_registered m st :
      u = MessageUpdate m -> o = Some st ->
      ~ email_registered (Some st) (str_lower (text m)) ->
      store_step u o (Some (<[py_str_int (user_id (from_user m)) := new_profile str_lower m]> st))
  | store_subjects q st d action data f :
      u = CallbackUpdate q -> o = Some st -> st !! caller_key q = Some d ->
      split_once "_" (cq_data q) = Some (action, data) ->
      (action = "add" /\ f = ArrayUnion [data]) \/ (action = "remove" /\ f = ArrayRemove [data]) ->
      store_step u o (Some (<[caller_key q := set_subjects d (f (subjects d))]> st)).

Record handler_step (u : Update) (w w' : World) : Prop := mkHandlerStep {
  step_store : store_step u (db w) (db w');
  step_login :
    truthy (is_logged_in (user_data w)) = false ->
    truthy (is_logged_in (user_data w')) = true ->
    exists m, u = MessageUpdate m /\ login_matches str_lower w m;
  step_outbox : exists new, outbox w' = outbox w ++ new /\ Forall call_ok new;
  step_model : ai_model w' = ai_model w
}.

Definition well_behaved (h : Handler) : Prop :=
  forall u w, handler_step u w (h u w).2.

(** A callback that leaves the store alone and does not raise the login
    flag. *)
Lemma quiet_step (u : Update) (w w' : World) (new : list ApiCall) :
  db w' = db w ->
  ai_model w' = ai_model w ->
  (truthy (is_logged_in (user_data w)) = false -> truthy (is_logged_in (user_data w')) = false) ->
  outbox w' = outbox w ++ new ->
  Forall call_ok new ->
  handler_step u w w'.
Proof.
  intros Hdb Hai Hflag Hout Hok. split.
  - rewrite Hdb. constructor.
  - intros H0 H1. rewrite (Hflag H0) in H1. discriminate H1.
  - exists new. auto.
  - exact Hai.
Qed.

Lemma call_ok_plain (c : ApiCall) : markup_buttons (call_markup c) = [] -> call_ok c.
Proof. intros H data Hin. rewrite H in Hin. inversion Hin. Qed.

Lemma call_ok_add_keyboard (body : string) (l : list string) :
  (forall s, s ∈ l -> s ∈ AVAILABLE_SUBJECTS) ->
  call_ok (SendMessage body (InlineKeyboardMarkup (map (fun s => [mkButton s ("add_" +:+ s)]) l))).
Proof.
  intros Hl data Hin. simpl in Hin. rewrite add_keyboard_buttons in Hin.
  apply list_elem_of_fmap in Hin as (s & -> & Hs).
  intros s' Hsplit. change (Some ("add", s) = Some ("add", s')) in Hsplit.
  injection Hsplit as <-. apply Hl. exact Hs.
Qed.

Lemma call_ok_remove_keyboard (c : ApiCall) (l : list string) :
  call_markup c = InlineKeyboardMarkup (remove_keyboard l) -> call_ok c.
Proof.
  intros Hc data Hin. rewrite Hc in Hin. simpl in Hin.
  apply remove_keyboard_buttons in Hin as [-> | (s & _ & ->)]; intros s' Hsplit.
  - discriminate Hsplit.
  - change (Some ("remove", s) = Some ("add", s')) in Hsplit. discriminate Hsplit.
Qed.

Lemma call_ok_tutor_keyboard (body : string) (l : list string) :
  call_ok (SendMessage body (InlineKeyboardMarkup (tutor_keyboard l))).
Proof.
  intros data Hin. simpl in Hin. rewrite tutor_keyboard_buttons in Hin.
  apply list_elem_of_fmap in Hin as (s & -> & _). intros s' Hsplit.
  change (Some ("tutor", s) = Some ("add", s')) in Hsplit. discriminate Hsplit.
Qed.

Lemma call_ok_quiz_keyboard (body : string) (l : list string) :
  call_ok (SendMessage body (InlineKeyboardMarkup (map (fun s => [mkButton s ("quiz_" +:+ s)]) l))).
Proof.
  intros data Hin. simpl in Hin.
  assert (Hb : map callback_data (concat (map (fun s => [mkButton s ("quiz_" +:+ s)]) l))
               = map (fun s => "quiz_" +:+ s) l).
  { clear Hin. induction l as [|s l IH]; simpl; [reflexivity|]. f_equal. exact IH. }
  rewrite Hb in Hin. apply list_elem_of_fmap in Hin as (s & -> & _). intros s' Hsplit.
  change (Some ("quiz", s) = Some ("add", s')) in Hsplit. discriminate Hsplit.
Qed.

End Table.

Section Behaviour.

Variable str_lower : string -> string.
Variable bot_username : string.

Ltac quiet :=
  eapply quiet_step;
  [ reflexivity
  | reflexivity
  | simpl; intros Hflag; first [exact Hflag | reflexivity]
  | first [ symmetry; apply app_nil_r
          | unfold say, with_outbox; cbn [outbox]; rewrite <- ?app_assoc; reflexivity ]
  | repeat (apply List.Forall_cons; [try (apply call_ok_plain; reflexivity)|]);
    try apply List.Forall_nil ].

Lemma start_command_behaved : well_behaved str_lower start_command.
Proof.
  intros [m|q] w; [|quiet]. unfold start_command. run_py.
  destruct (truthy (is_logged_in (user_data w))) eqn:Hin; simpl; [quiet|].
  destruct (db w ≫= (fun st => st !! py_str_int (user_id (from_user m)))); simpl; quiet.
Qed.

Lemma logout_command_behaved : well_behaved str_lower logout_command.
Proof. intros [m|q] w; quiet. Qed.

Lemma start_registration_behaved : well_behaved str_lower start_registration.
Proof. intros [m|q] w; quiet. Qed.

Lemma get_email_and_register_behaved :
  well_behaved str_lower (get_email_and_register str_lower).
Proof.
  intros [m|q] w; [|quiet]. rewrite get_email_and_register_run.
  destruct (db w) as [st|] eqn:Hdb; [|quiet].
  destruct (0 <? Z.of_nat (length (where_email st (str_lower (text m))))) eqn:Hq; [quiet|].
  split.
  - cbn [snd db say with_outbox with_db]. eapply store_registered; [reflexivity | exact Hdb |].
    intros Hr. apply where_email_found in Hr. congruence.
  - simpl. intros H0 H1. congruence.
  - eexists. split; [reflexivity|]. apply List.Forall_cons; [apply call_ok_plain; reflexivity | apply List.Forall_nil].
  - reflexivity.
Qed.

Lemma start_login_behaved : well_behaved str_lower start_login.
Proof.
  intros [m|q] w; [|quiet]. unfold start_login. run_py.
  destruct (truthy (is_logged_in (user_data w))); quiet.
Qed.

Lemma check_email_and_login_behaved :
  well_behaved str_lower (check_email_and_login str_lower).
Proof.
  intros [m|q] w; [|quiet]. rewrite check_email_and_login_run.
  destruct (db w) as [st|] eqn:Hdb; simpl; [|quiet].
  destruct (st !! py_str_int (user_id (from_user m))) as [d|] eqn:Hd; [|quiet].
  case_bool_decide as He; [|quiet].
  split.
  - simpl. rewrite Hdb. constructor.
  - intros _ _. exists m. split; [reflexivity|]. exists st, d. auto.
  - eexists. split; [reflexivity|]. apply List.Forall_cons; [apply call_ok_plain; reflexivity | apply List.Forall_nil].
  - reflexivity.
Qed.

Lemma cancel_conversation_behaved : well_behaved str_lower cancel_conversation.
Proof.
  intros [m|q] w; [|quiet]. unfold cancel_conversation. run_py.
  destruct (truthy (is_logged_in (user_data w))); quiet.
Qed.

Lemma login_required_behaved (func : Handler) :
  well_behaved str_lower func -> well_behaved str_lower (login_required func).
Proof.
  intros Hf u w. rewrite login_required_any.
  destruct (truthy (is_logged_in (user_data w))); [apply Hf|].
  destruct u; quiet.
Qed.

Lemma add_subject_command_behaved : well_behaved str_lower add_subject_command.
Proof.
  apply login_required_behaved. intros [m|q] w; [|quiet].
  rewrite add_subject_command_body_run.
  destruct (filter _ AVAILABLE_SUBJECTS) as [|s0 l] eqn:Hl; [quiet|].
  eapply quiet_step; [reflexivity | reflexivity | auto | reflexivity |].
  apply List.Forall_cons; [|apply List.Forall_nil]. apply call_ok_add_keyboard. intros s Hs.
  rewrite <- Hl in Hs. apply list_elem_of_filter in Hs as [_ Hs]. exact Hs.
Qed.

Lemma my_subjects_command_behaved : well_behaved str_lower my_subjects_command.
Proof.
  apply login_required_behaved. intros [m|q] w; [|quiet].
  rewrite my_subjects_command_body_run.
  destruct (profile_subjects (db w) (from_user m)) as [|s0 l]; [quiet|].
  eapply quiet_step; [reflexivity | reflexivity | auto | reflexivity |].
  apply List.Forall_cons; [|apply List.Forall_nil]. apply (call_ok_remove_keyboard _ (s0 :: l)). reflexivity.
Qed.

Lemma quiz_me_command_behaved : well_behaved str_lower quiz_me_command.
Proof.
  apply login_required_behaved. intros [m|q] w; [|quiet].
  rewrite quiz_me_command_body_run.
  destruct (profile_subjects (db w) (from_user m)) as [|s0 l]; [quiet|].
  eapply quiet_step; [reflexivity | reflexivity | auto | reflexivity |].
  apply List.Forall_cons; [|apply List.Forall_nil]. apply (call_ok_quiz_keyboard _ (s0 :: l)).
Qed.

Lemma start_tutor_session_behaved : well_behaved str_lower start_tutor_session.
Proof.
  apply login_required_behaved. intros [m|q] w; [|quiet].
  rewrite start_tutor_session_body_run.
  destruct (profile_subjects (db w) (from_user m)) as [|s0 l]; [quiet|].
  eapply quiet_step; [reflexivity | reflexivity | auto | reflexivity |].
  apply List.Forall_cons; [|apply List.Forall_nil]. apply (call_ok_tutor_keyboard _ (s0 :: l)).
Qed.

Lemma start_ai_conversation_behaved : well_behaved str_lower start_ai_conversation.
Proof.
  intros [m|q] w; [|quiet]. unfold start_ai_conversation. run_py.
  destruct (ai_model w) as [model|]; simpl; [|quiet].
  destruct (start_chat model _) as [chat|e]; simpl; [|quiet].
  destruct (send_message model chat (text m)) as [response|e]; simpl; [|quiet].
  destruct (response_text response.1) as [answer|e]; simpl; quiet.
Qed.

Lemma forward_to_ai_behaved : well_behaved str_lower forward_to_ai.
Proof.
  intros [m|q] w; [|quiet]. unfold forward_to_ai. run_py.
  destruct (ai_model w) as [model|]; simpl; [|quiet].
  destruct (chat_session (user_data w)) as [chat|]; simpl; [|quiet].
  destruct (send_message model chat (text m)) as [response|e]; simpl; [|quiet].
  destruct (response_text response.1) as [answer|e]; simpl; quiet.
Qed.

Lemma end_tutor_session_behaved : well_behaved str_lower end_tutor_session.
Proof. intros [m|q] w; quiet. Qed.

Lemma button_handler_behaved : well_behaved str_lower button_handler.
Proof.
  intros [m|q] w; [quiet|].
  destruct (split_once "_" (cq_data q)) as [[action data]|] eqn:Hsplit.
  2:{ unfold button_handler. run_py. rewrite Hsplit. quiet. }
  destruct (decide (action = "add")) as [->|Hadd].
  { rewrite (button_add q data w Hsplit).
    destruct (db w) as [st|] eqn:Hdb; [|quiet].
    destruct (st !! caller_key q) as [d|] eqn:Hd; [|quiet].
    split.
    - cbn [snd db say with_outbox with_db].
      apply (store_subjects str_lower _ _ q st d "add" data (ArrayUnion [data])); auto.
    - simpl. intros H0 H1. congruence.
    - eexists. split; [unfold say, with_outbox; cbn [snd outbox]; rewrite <- app_assoc; reflexivity|].
      repeat (apply List.Forall_cons; [apply call_ok_plain; reflexivity|]). apply List.Forall_nil.
    - reflexivity. }
  destruct (decide (action = "remove")) as [->|Hremove].
  { rewrite (button_remove q data w Hsplit).
    destruct (db w) as [st|] eqn:Hdb; [|quiet].
    destruct (st !! caller_key q) as [d|] eqn:Hd; [|quiet].
    cbv zeta. split.
    - cbn [snd db say with_outbox with_db].
      apply (store_subjects str_lower _ _ q st d "remove" data (ArrayRemove [data])); auto.
    - simpl. intros H0 H1. congruence.
    - eexists. split; [unfold say, with_outbox; cbn [snd outbox]; rewrite <- app_assoc; reflexivity|].
      apply List.Forall_cons; [apply call_ok_plain; reflexivity|].
      apply List.Forall_cons; [|apply List.Forall_nil].
      destruct (ArrayRemove [data] (subjects d)) as [|s0 l] eqn:Hl;
        [apply call_ok_plain; reflexivity|].
      apply (call_ok_remove_keyboard _ (s0 :: l)). reflexivity.
    - reflexivity. }
  destruct (decide (action = "tutor")) as [->|Htutor].
  { rewrite (button_tutor q data w Hsplit). quiet. }
  destruct (decide (action = "quiz")) as [->|Hquiz].
  { rewrite (button_quiz q data w Hsplit). quiet. }
  unfold button_handler. run_py. rewrite Hsplit. unfold button_action.
  rewrite !bool_decide_eq_false_2 by assumption. run_py.
  destruct (tutor_subject (user_data w)); quiet.
Qed.

Lemma table_well_behaved :
  Forall (well_behaved str_lower) (table_callbacks (main_handlers str_lower)).
Proof.
  unfold table_callbacks, main_handlers, conversation_callbacks. simpl.
  repeat (apply List.Forall_cons;
          [first [ apply start_command_behaved | apply logout_command_behaved
                 | apply start_registration_behaved | apply get_email_and_register_behaved
                 | apply start_login_behaved | apply check_email_and_login_behaved
                 | apply cancel_conversation_behaved | apply add_subject_command_behaved
                 | apply my_subjects_command_behaved | apply quiz_me_command_behaved
                 | apply start_tutor_session_behaved | apply start_ai_conversation_behaved
                 | apply forward_to_ai_behaved | apply end_tutor_session_behaved
                 | apply button_handler_behaved ] |]).
  apply List.Forall_nil.
Qed.

End Behaviour.

Section Steps.

Variable str_lower : string -> string.
Variable bot_username : string.

Definition caller (u : Update) : Z := user_id (effective_user u).

(** An update changes nothing, or some callback of the table ran on the
    caller's world and its world was written back. *)
Lemma process_update_cases (a : App) (u : Update) :
  process_update str_lower bot_username a u = a \/
  exists w',
    handler_step str_lower u (world_of a (caller u)) w' /\
    app_db (process_update str_lower bot_username a u) = db w' /\
    app_ai (process_update str_lower bot_username a u) = app_ai a /\
    app_user_data (process_update str_lower bot_username a u) = <[caller u := user_data w']> (app_user_data a) /\
    app_chats (process_update str_lower bot_username a u) = <[caller u := outbox w']> (app_chats a).
Proof.
  unfold process_update. fold (caller u).
  destruct (select_handler bot_username (main_handlers str_lower) a u) as [[c cb]|] eqn:Hsel; [right | left; reflexivity].
  apply select_handler_in in Hsel.
  pose proof (proj1 (List.Forall_forall _ _) (table_well_behaved str_lower) cb) as Hcb.
  assert (Hstep : handler_step str_lower u (world_of a (caller u)) (cb u (world_of a (caller u))).2).
  { apply Hcb. apply list_elem_of_In. exact Hsel. }
  destruct (cb u (world_of a (caller u))) as [[r|e] w']; cbn [snd] in Hstep;
    exists w'; (split; [exact Hstep|]).
  - destruct c as [id|]; [destruct id|]; repeat split.
  - repeat split.
Qed.

Lemma store_step_lookup (u : Update) (o o' : option (gmap string Doc)) (k : string) (d : Doc) :
  store_step str_lower u o o' ->
  o ≫= (fun st => st !! k) = Some d ->
  exists d', o' ≫= (fun st => st !! k) = Some d' /\
             (k <> py_str_int (caller u) -> d' = d) /\
             (email d' = email d \/ exists m, u = MessageUpdate m /\ d' = new_profile str_lower m).
Proof.
  intros Hstep Hk. destruct Hstep as [| m st Hu Ho Hfree | q st d0 action data f Hu Ho Hd Hsplit Hf].
  - exists d. auto.
  - subst. simpl in Hk. unfold caller. simpl.
    destruct (decide (py_str_int (user_id (from_user m)) = k)) as [<-|Hne].
    + eexists. rewrite lookup_insert_eq. split; [reflexivity|]. split; [congruence|].
      right. exists m. auto.
    + exists d. rewrite lookup_insert_ne by exact Hne. auto.
  - subst. simpl in Hk. unfold caller, caller_key in *. simpl.
    destruct (decide (py_str_int (user_id (cq_from_user q)) = k)) as [<-|Hne].
    + eexists. rewrite lookup_insert_eq. split; [reflexivity|]. split; [congruence|].
      left. rewrite Hd in Hk. injection Hk as <-. reflexivity.
    + exists d. rewrite lookup_insert_ne by exact Hne. auto.
Qed.

(** X12: no update deletes a profile, and an update writes at most the
    caller's own document.  Whatever the update, the state and the
    caller: a profile that exists still exists afterwards; under any key
    other than the caller's it is unchanged; under the caller's key its
    email is unchanged unless the update is a message that re-registers
    the caller. *)
Theorem profiles_are_kept (a : App) (u : Update) (k : string) (d : Doc) :
  app_db a ≫= (fun st => st !! k) = Some d ->
  exists d',
    app_db (process_update str_lower bot_username a u) ≫= (fun st => st !! k) = Some d' /\
    (k <> py_str_int (caller u) -> d' = d) /\
    (email d' = email d \/ exists m, u = MessageUpdate m /\ d' = new_profile str_lower m).
Proof.
  intros Hk. destruct (process_update_cases a u) as [-> | (w' & Hstep & Hdb & _)].
  - exists d. auto.
  - rewrite Hdb. apply (store_step_lookup u (app_db a)); [|exact Hk].
    apply (step_store _ _ _ _ Hstep).
Qed.

Definition logged_in (a : App) (uid : Z) : bool :=
  truthy (is_logged_in (default empty_session (app_user_data a !! uid))).

(** X13: the only way in.  If a user is not logged in before an update
    and is logged in after it, the update is a text message of that very
    user, and the store holds a profile under the user's identifier
    whose email is the lower-cased text. *)
Theorem login_only_by_email (a : App) (u : Update) (uid : Z) :
  logged_in a uid = false ->
  logged_in (process_update str_lower bot_username a u) uid = true ->
  exists m st d,
    u = MessageUpdate m /\ user_id (from_user m) = uid /\
    app_db a = Some st /\ st !! py_str_int uid = Some d /\ email d = str_lower (text m).
Proof.
  unfold logged_in. intros Hout Hin.
  destruct (process_update_cases a u) as [Heq | (w' & Hstep & _ & _ & Hud & _)].
  { rewrite Heq in Hin. congruence. }
  rewrite Hud in Hin.
  destruct (decide (caller u = uid)) as [<-|Hne].
  - rewrite lookup_insert_eq in Hin. simpl in Hin.
    destruct (step_login _ _ _ _ Hstep Hout Hin) as (m & -> & st & d & Hdb & Hd & He).
    exists m, st, d. auto.
  - rewrite lookup_insert_ne in Hin by exact Hne. congruence.
Qed.

End Steps.

(** * Invariants of the reachable states *)

Section Invariants.

Variable str_lower : string -> string.
Variable bot_username : string.

(** The subjects of every profile are distinct catalog subjects. *)
Definition subjects_ok (st : gmap string Doc) : Prop :=
  forall k d, st !! k = Some d ->
    NoDup (subjects d) /\ forall s, s ∈ subjects d -> s ∈ AVAILABLE_SUBJECTS.

Record app_inv (a : App) : Prop := mkAppInv {
  inv_store : exists st, app_db a = Some st /\ emails_unique st /\ subjects_ok st;
  inv_buttons : forall uid calls, app_chats a !! uid = Some calls -> Forall call_ok calls;
  inv_auth : forall uid, logged_in a uid = true ->
             is_Some (app_db a ≫= (fun st => st !! py_str_int uid))
}.

Lemma emails_unique_insert_fresh (st : gmap string Doc) (k : string) (d : Doc) :
  emails_unique st ->
  (forall k' d', st !! k' = Some d' -> email d' <> email d) ->
  emails_unique (<[k := d]> st).
Proof.
  intros Huniq Hfree k1 k2 d1 d2 H1 H2 He.
  destruct (decide (k1 = k2)) as [|Hne]; [assumption|exfalso].
  destruct (decide (k = k1)) as [<-|Hk1].
  - rewrite lookup_insert_eq in H1. injection H1 as <-.
    rewrite lookup_insert_ne in H2 by assumption.
    apply (Hfree k2 d2 H2). symmetry. exact He.
  - rewrite lookup_insert_ne in H1 by assumption.
    destruct (decide (k = k2)) as [<-|Hk2].
    + rewrite lookup_insert_eq in H2. injection H2 as <-. apply (Hfree k1 d1 H1). exact He.
    + rewrite lookup_insert_ne in H2 by assumption.
      apply Hne. exact (Huniq k1 k2 d1 d2 H1 H2 He).
Qed.

Lemma emails_unique_insert_same (st : gmap string Doc) (k : string) (d d' : Doc) :
  emails_unique st -> st !! k = Some d -> email d' = email d ->
  emails_unique (<[k := d']> st).
Proof.
  intros Huniq Hk Hsame k1 k2 d1 d2 H1 H2 He.
  destruct (decide (k = k1)) as [<-|Hk1]; destruct (decide (k = k2)) as [<-|Hk2];
    [reflexivity | | |].
  - rewrite lookup_insert_eq in H1. rewrite lookup_insert_ne in H2 by assumption.
    injection H1 as <-. apply (Huniq k k2 d d2 Hk H2). congruence.
  - rewrite lookup_insert_eq in H2. rewrite lookup_insert_ne in H1 by assumption.
    injection H2 as <-. apply (Huniq k1 k d1 d H1 Hk). congruence.
  - rewrite lookup_insert_ne in H1, H2 by assumption.
    exact (Huniq k1 k2 d1 d2 H1 H2 He).
Qed.

Lemma current_markup_in (calls : list ApiCall) (message sent : nat) (cur : option Markup)
    (mk : Markup) :
  current_markup calls message sent cur = Some mk ->
  cur = Some mk \/ exists c, c ∈ calls /\ call_markup c = mk.
Proof.
  revert sent cur. induction calls as [|c calls IH]; intros sent cur; simpl; [auto|].
  destruct c as [|body mk0|i body mk0]; intros H; apply IH in H as [H | (c & Hc & Hmk)];
    try (right; exists c; split; [right; exact Hc | exact Hmk]).
  - left. exact H.
  - revert H. destruct (Nat.eqb sent message); intros H; [|left; exact H].
    injection H as <-. right. eexists. split; [left | reflexivity].
  - revert H. destruct (Nat.eqb i message); intros H; [|left; exact H].
    destruct cur; [|discriminate H]. injection H as <-.
    right. eexists. split; [left | reflexivity].
Qed.

(** The button a user can press was shown by a call of the chat. *)
Lemma possible_payload_ok (a : App) (q : CallbackQuery) :
  (forall uid calls, app_chats a !! uid = Some calls -> Forall call_ok calls) ->
  possible_update a (CallbackUpdate q) = true ->
  add_payload_ok (cq_data q).
Proof.
  intros Hbuttons Hposs. unfold possible_update in Hposs.
  destruct (app_chats a !! user_id (cq_from_user q)) as [calls|] eqn:Hchat; simpl in Hposs;
    [|discriminate Hposs].
  destruct (current_markup calls (cq_message q) 0 None) as [mk|] eqn:Hmk; [|discriminate Hposs].
  apply bool_decide_eq_true_1 in Hposs.
  apply current_markup_in in Hmk as [Hmk | (c & Hc & Hmk)]; [discriminate Hmk|].
  pose proof (Hbuttons _ _ Hchat) as Hall.
  apply (proj1 (List.Forall_forall _ _) Hall c); [apply list_elem_of_In; exact Hc|].
  rewrite Hmk. exact Hposs.
Qed.

Lemma app_inv_step (a : App) (u : Update) :
  app_inv a -> possible_update a u = true -> app_inv (process_update str_lower bot_username a u).
Proof.
  intros [(st & Hst & Huniq & Hsubj) Hbuttons Hauth] Hposs.
  destruct (process_update_cases str_lower bot_username a u)
    as [-> | (w' & [Hstore Hlogin (new & Hout & Hnew) _] & Hdb & _ & Hud & Hchats)].
  { split; eauto. }
  assert (Hkept : forall k, is_Some (app_db a ≫= (fun st => st !! k)) ->
                            is_Some (db w' ≫= (fun st => st !! k))).
  { intros k [d Hk].
    destruct (store_step_lookup str_lower u _ _ k d Hstore Hk) as (d' & Hd' & _). eauto. }
  split.
  - rewrite Hdb. cbn [db world_of] in Hstore. rewrite Hst in Hstore.
    remember (Some st) as o eqn:Ho. remember (db w') as o' eqn:Ho'.
    destruct Hstore as [| m st0 Hu Hsome Hfree | q st0 d action data f Hu Hsome Hd Hsplit Hf];
      subst.
    + eauto.
    + injection Hsome as <-. eexists. split; [reflexivity|]. split.
      * apply emails_unique_insert_fresh; [exact Huniq|].
        intros k' d' Hk' He. apply Hfree. exists st, k', d'. auto.
      * intros k d Hk. destruct (decide (py_str_int (user_id (from_user m)) = k)) as [<-|Hne].
        -- rewrite lookup_insert_eq in Hk. injection Hk as <-. simpl.
           split; [apply NoDup_nil_2 | intros s Hs; inversion Hs].
        -- rewrite lookup_insert_ne in Hk by exact Hne. eauto.
    + injection Hsome as <-. eexists. split; [reflexivity|]. split.
      * apply (emails_unique_insert_same st _ d); auto.
      * intros k d' Hk. destruct (decide (caller_key q = k)) as [<-|Hne].
        2:{ rewrite lookup_insert_ne in Hk by exact Hne. eauto. }
        rewrite lookup_insert_eq in Hk. injection Hk as <-. cbn [subjects set_subjects].
        destruct (Hsubj _ _ Hd) as [Hnodup Hcat].
        destruct Hf as [[-> ->] | [-> ->]].
        -- split; [apply ArrayUnion_NoDup; exact Hnodup|].
           intros s Hs. apply ArrayUnion_elem in Hs as [Hs | Hs]; [auto|].
           apply list_elem_of_singleton in Hs as ->.
           apply (possible_payload_ok a q Hbuttons Hposs). exact Hsplit.
        -- split; [apply ArrayRemove_NoDup; exact Hnodup|].
           intros s Hs. apply ArrayRemove_elem in Hs as [Hs _]. auto.
  - intros uid calls. rewrite Hchats.
    destruct (decide (caller u = uid)) as [<-|Hne].
    + rewrite lookup_insert_eq. intros [= <-]. rewrite Hout. cbn [outbox world_of].
      apply List.Forall_app. split; [|exact Hnew].
      destruct (app_chats a !! caller u) as [calls|] eqn:Hc; simpl;
        [exact (Hbuttons _ _ Hc) | apply List.Forall_nil].
    + rewrite lookup_insert_ne by exact Hne. apply Hbuttons.
  - intros uid. unfold logged_in. rewrite Hud, Hdb.
    destruct (decide (caller u = uid)) as [<-|Hne].
    + rewrite lookup_insert_eq. simpl. intros Hin.
      destruct (truthy (is_logged_in (user_data (world_of a (caller u))))) eqn:Hwas.
      * apply Hkept. apply Hauth. exact Hwas.
      * destruct (Hlogin eq_refl Hin) as (m & -> & st' & d & Hdb' & Hd & _).
        apply Hkept. cbn [db world_of] in Hdb'. rewrite Hdb'. simpl.
        unfold caller. simpl. rewrite Hd. eauto.
    + rewrite lookup_insert_ne by exact Hne. intros Hin. apply Hkept. apply Hauth. exact Hin.
Qed.

Lemma reachable_inv (ai : option GenerativeModel) (a : App) :
  reachable str_lower bot_username ai a -> app_inv a.
Proof.
  induction 1 as [|a u _ IH Hposs]; [|apply app_inv_step; assumption].
  split.
  - exists ∅. split; [reflexivity|]. split.
    + intros k1 k2 d1 d2 H1. rewrite lookup_empty in H1. discriminate H1.
    + intros k d H1. rewrite lookup_empty in H1. discriminate H1.
  - intros uid calls H1. simpl in H1. rewrite lookup_empty in H1. discriminate H1.
  - intros uid. unfold logged_in. simpl. rewrite lookup_empty. discriminate.
Qed.

(** X14: in every state the users can reach from the empty store, the
    subjects of every profile are distinct and belong to
    [AVAILABLE_SUBJECTS]: the add menu offers only catalog subjects the
    profile lacks, and a user can press only a button that is shown. *)
Theorem reachable_subjects_in_catalog (ai : option GenerativeModel) (a : App)
    (st : gmap string Doc) (k : string) (d : Doc) :
  reachable str_lower bot_username ai a ->
  app_db a = Some st -> st !! k = Some d ->
  NoDup (subjects d) /\ forall s, s ∈ subjects d -> s ∈ AVAILABLE_SUBJECTS.
Proof.
  intros Hr Hdb Hk. destruct (reachable_inv ai a Hr) as [(st' & Hst' & _ & Hsubj) _ _].
  rewrite Hdb in Hst'. injection Hst' as <-. exact (Hsubj k d Hk).
Qed.

(** X15: in every reachable state the store is there and no two
    profiles hold the same email. *)
Theorem reachable_emails_unique (ai : option GenerativeModel) (a : App) :
  reachable str_lower bot_username ai a ->
  exists st, app_db a = Some st /\ emails_unique st.
Proof.
  intros Hr. destruct (reachable_inv ai a Hr) as [(st & Hst & Huniq & _) _ _]. eauto.
Qed.

(** X16: in every reachable state a user who is logged in has a profile
    in the store. *)
Theorem reachable_logged_in_registered (ai : option GenerativeModel) (a : App) (uid : Z) :
  reachable str_lower bot_username ai a ->
  logged_in a uid = true ->
  exists st d, app_db a = Some st /\ st !! py_str_int uid = Some d.
Proof.
  intros Hr Hin. destruct (reachable_inv ai a Hr) as [(st & Hst & _) _ Hauth].
  destruct (Hauth uid Hin) as [d Hd]. rewrite Hst in Hd. simpl in Hd. eauto.
Qed.

End Invariants.

(** * Edges of the handler table *)

Section TableEdges.

Variable str_lower : string -> string.
Variable bot_username : string.

(** X17: a button that no pattern of the table takes does nothing.  A
    callback whose data starts with none of [add_], [remove_], [quiz_]
    (such as the label button [n_]) is dropped, unless it is a tutor
    option pressed while the caller is in [T_SELECT_SUBJECT]: store,
    sessions, chats and conversations stay as they are. *)
Theorem unrouted_callback_ignored (a : App) (q : CallbackQuery) :
  universal_tag (cq_data q) = false ->
  startswith "tutor_" (cq_data q) = false
    \/ tutor_conv a !! user_id (cq_from_user q) <> Some T_SELECT_SUBJECT ->
  process_update str_lower bot_username a (CallbackUpdate q) = a.
Proof.
  intros Htag Hcond. unfold process_update.
  assert (Hsel : select_handler bot_username (main_handlers str_lower) a (CallbackUpdate q) = None);
    [|rewrite Hsel; reflexivity].
  unfold main_handlers. cbn [select_handler check_filter].
  destruct (account_conversations_skip_callback str_lower bot_username q
              (conv_states a Reg !! user_id (effective_user (CallbackUpdate q)))) as [-> _].
  destruct (account_conversations_skip_callback str_lower bot_username q
              (conv_states a Login !! user_id (effective_user (CallbackUpdate q)))) as [_ ->].
  change (existsb (fun p => startswith p (cq_data q)) ["add_"; "remove_"; "quiz_"])
    with (universal_tag (cq_data q)). rewrite Htag.
  cbn [conv_states effective_user].
  destruct (tutor_conv a !! user_id (cq_from_user q)) as [s|]; [|reflexivity].
  unfold conversation_check, state_handlers.
  cbn [states tutor_handler find fst snd].
  case_bool_decide as Hs; [|repeat case_bool_decide; reflexivity].
  destruct Hcond as [Hnot | Hne]; [|congruence].
  unfold first_match. cbn [snd find fst check_filter existsb]. rewrite Hnot. reflexivity.
Qed.

Lemma text_is_no_command (m : Message) (name : string) :
  check_filter bot_username TextNotCommand (MessageUpdate m) = true ->
  check_filter bot_username (Command name) (MessageUpdate m) = false.
Proof.
  simpl. intros H. apply andb_true_iff in H as [_ H]. apply negb_true_iff in H.
  apply bool_decide_eq_false_2. intros Hc. apply command_is_command in Hc. congruence.
Qed.

Lemma command_filter (m : Message) (name name' : string) :
  command_name bot_username (text m) = Some name ->
  check_filter bot_username (Command name') (MessageUpdate m) = bool_decide (name = name').
Proof. intros H. simpl. rewrite H. apply bool_decide_ext. split; congruence. Qed.

Lemma command_no_text (m : Message) (name : string) :
  command_name bot_username (text m) = Some name ->
  check_filter bot_username TextNotCommand (MessageUpdate m) = false.
Proof. intros H. simpl. rewrite (command_is_command _ _ _ H). apply andb_false_r. Qed.

(** X18: logging out does not leave the tutor conversation.  [/logout]
    sent while the first question is awaited empties the session and
    leaves the conversation in [T_ASK_QUESTION]; for a user who is in
    neither the registration nor the login conversation, the next text
    still goes to [start_ai_conversation], which is registered without
    the gate. *)
Theorem logout_keeps_tutor_conversation (a : App) (m mq : Message) :
  command_name bot_username (text m) = Some "logout" ->
  from_user mq = from_user m ->
  check_filter bot_username TextNotCommand (MessageUpdate mq) = true ->
  tutor_conv a !! user_id (from_user m) = Some T_ASK_QUESTION ->
  reg_conv a !! user_id (from_user m) = None ->
  login_conv a !! user_id (from_user m) = None ->
  let a1 := process_update str_lower bot_username a (MessageUpdate m) in
  app_user_data a1 !! user_id (from_user m) = Some empty_session /\
  tutor_conv a1 !! user_id (from_user m) = Some T_ASK_QUESTION /\
  select_handler bot_username (main_handlers str_lower) a1 (MessageUpdate mq)
    = Some (Some Tutor, start_ai_conversation).
Proof.
  intros Hcmd Huser Htext Htutor Hreg Hlogin a1.
  assert (Ha1 : a1 = set_world a (user_id (from_user m))
                       (logout_command (MessageUpdate m) (world_of a (user_id (from_user m)))).2).
  { subst a1. unfold process_update, main_handlers. cbn [select_handler].
    rewrite !(command_filter m "logout") by exact Hcmd.
    rewrite bool_decide_eq_false_2 by discriminate.
    rewrite bool_decide_eq_true_2 by reflexivity. reflexivity. }
  rewrite Ha1. split; [cbn; apply lookup_insert_eq|]. split; [exact Htutor|].
  unfold main_handlers. cbn [select_handler].
  rewrite !text_is_no_command by exact Htext.
  cbn [conv_states effective_user set_world reg_conv login_conv tutor_conv].
  rewrite Huser, Hreg, Hlogin, Htutor.
  unfold conversation_check at 1 2. unfold first_match.
  cbn [entry_points reg_handler login_handler find fst].
  rewrite !text_is_no_command by exact Htext. cbn [fmap option_fmap option_map].
  unfold conversation_check.
  change (state_handlers tutor_handler T_ASK_QUESTION)
    with [(TextNotCommand, start_ai_conversation)].
  unfold first_match. cbn [find fst]. rewrite Htext. reflexivity.
Qed.

(** X19: [/cancel] while registration awaits the email ends the
    registration conversation and nothing else: the store and the
    session are as before, the login conversation keeps its state, and
    the reply names the main menu only for a logged-in caller. *)
Theorem cancel_ends_registration (a : App) (m : Message) :
  command_name bot_username (text m) = Some "cancel" ->
  reg_conv a !! user_id (from_user m) = Some GET_EMAIL_REG ->
  let uid := user_id (from_user m) in
  let a' := process_update str_lower bot_username a (MessageUpdate m) in
  reg_conv a' !! uid = None /\
  login_conv a' = login_conv a /\
  tutor_conv a' = tutor_conv a /\
  app_db a' = app_db a /\
  app_user_data a' !! uid = Some (default empty_session (app_user_data a !! uid)) /\
  app_chats a' !! uid
    = Some (default [] (app_chats a !! uid)
            ++ [if logged_in a uid
                then SendMessage "Action canceled. Returning to the main menu." MAIN_MENU_MARKUP
                else SendMessage "Action canceled." NoMarkup]).
Proof.
  intros Hcmd Hreg uid a'. subst uid a'.
  assert (Hsel : select_handler bot_username (main_handlers str_lower) a (MessageUpdate m)
                 = Some (Some Reg, cancel_conversation)).
  { unfold main_handlers. cbn [select_handler].
    rewrite !(command_filter m "cancel") by exact Hcmd.
    rewrite !bool_decide_eq_false_2 by discriminate.
    cbn [conv_states effective_user]. rewrite Hreg.
    unfold conversation_check.
    change (state_handlers (reg_handler str_lower) GET_EMAIL_REG)
      with [(TextNotCommand, get_email_and_register str_lower)].
    unfold first_match. cbn [find fst fallbacks reg_handler].
    rewrite (command_no_text m "cancel") by exact Hcmd.
    rewrite (command_filter m "cancel") by exact Hcmd.
    rewrite bool_decide_eq_true_2 by reflexivity. reflexivity. }
  unfold process_update. rewrite Hsel. cbn [effective_user conv_states].
  unfold cancel_conversation. run_py. unfold logged_in.
  destruct (truthy (is_logged_in (default empty_session (app_user_data a !! user_id (from_user m)))));
    rewrite Hreg; unfold update_state; rewrite bool_decide_eq_true_2 by reflexivity;
    unfold set_conv, set_world; cbn;
    rewrite lookup_delete_eq, !lookup_insert_eq; auto 10.
Qed.

End TableEdges.

Section QuizMenu.

(** X20: from the quiz menu to the quiz.  Each button of the menu that
    [quiz_me_command] just sent is the quiz of a subject the profile
    holds; pressing it never raises, writes neither the store nor the
    session, and sends, between the two edits of the menu message, one
    message with the text obtained for that subject and the main menu. *)
Theorem quiz_menu_press (m : Message) (w : World) (q : CallbackQuery) :
  truthy (is_logged_in (user_data w)) = true ->
  cq_data q ∈ last_keyboard (quiz_me_command (MessageUpdate m) w).2 ->
  exists s r w',
    s ∈ profile_subjects (db w) (from_user m) /\
    button_handler (CallbackUpdate q) (quiz_me_command (MessageUpdate m) w).2 = (Ok r, w') /\
    db w' = db w /\ user_data w' = user_data w /\
    outbox w' = outbox (quiz_me_command (MessageUpdate m) w).2
                ++ [AnswerCallbackQuery;
                    EditMessageText (cq_message q)
                      ("⏳ Generating a quiz for '" +:+ s +:+ "'... Please wait.") NoMarkup;
                    SendMessage (quiz_text_of (ai_model w) s) MAIN_MENU_MARKUP;
                    EditMessageText (cq_message q)
                      ("✅ Your quiz for '" +:+ s +:+ "' is ready!") NoMarkup].
Proof.
  intros Hin Hpress. unfold quiz_me_command in *.
  rewrite login_required_any, Hin, quiz_me_command_body_run in *.
  destruct (profile_subjects (db w) (from_user m)) as [|s0 l] eqn:Hl.
  { unfold last_keyboard, say, with_outbox in Hpress. cbn [snd outbox] in Hpress.
    rewrite last_snoc in Hpress. inversion Hpress. }
  unfold last_keyboard, say, with_outbox in Hpress. cbn [snd outbox] in Hpress.
  rewrite last_snoc in Hpress. unfold markup_buttons in Hpress.
  assert (Hb : forall l', map callback_data (concat (map (fun s => [mkButton s ("quiz_" +:+ s)]) l'))
                          = map (fun s => "quiz_" +:+ s) l').
  { induction l' as [|s l' IH]; simpl; [reflexivity|]. f_equal. exact IH. }
  rewrite Hb in Hpress. apply list_elem_of_fmap in Hpress as (s & Hdata & Hs).
  assert (Hsplit : split_once "_" (cq_data q) = Some ("quiz", s)) by (rewrite Hdata; reflexivity).
  exists s. rewrite (button_quiz q s _ Hsplit). eexists _, _.
  split; [exact Hs|]. split; [reflexivity|]. split; [reflexivity|]. split; [reflexivity|].
  unfold say, with_outbox. cbn [snd outbox ai_model]. rewrite <- !app_assoc. reflexivity.
Qed.

End QuizMenu.

(** * The further properties at concrete inputs *)

Definition ann_profile : Doc :=
  {| email := "ann@example.com"; telegram_username := "ann"; subjects := ["Math"] |}.
Definition ann_store : gmap string Doc := {[ "7" := ann_profile ]}.
Definition bob : User := {| user_id := 8; username := None |}.

Lemma ann_store_emails_unique : emails_unique ann_store.
Proof.
  intros k1 k2 d1 d2 H1 H2 _. unfold ann_store in *.
  apply lookup_singleton_Some in H1 as [<- _]. apply lookup_singleton_Some in H2 as [<- _].
  reflexivity.
Qed.

Lemma login_opens_gate_for_ann :
  login_required add_subject_command_body (says "/addsubject")
    (check_email_and_login lower_ascii (says "Ann@Example.com") math_world).2
  = add_subject_command_body (says "/addsubject")
      (check_email_and_login lower_ascii (says "Ann@Example.com") math_world).2.
Proof.
  assert (Hm : login_matches lower_ascii math_world (mkMessage ann "Ann@Example.com")).
  { exists ann_store, ann_profile. repeat split; vm_compute; reflexivity. }
  destruct (login_opens_gate lower_ascii (mkMessage ann "Ann@Example.com") math_world
              add_subject_command_body (says "/addsubject") Hm) as [Hgate _].
  exact Hgate.
Defined.

Lemma registration_keeps_emails_unique_for_bob :
  exists st',
    db (get_email_and_register lower_ascii
          (MessageUpdate (mkMessage bob "Bob@Example.com")) math_world).2 = Some st'
    /\ emails_unique st'.
Proof.
  exact (registration_keeps_emails_unique lower_ascii (mkMessage bob "Bob@Example.com")
           math_world ann_store eq_refl ann_store_emails_unique).
Defined.

Definition empty_store_world : World :=
  {| db := Some ∅; ai_model := None; user_data := empty_session; outbox := [] |}.

Lemma register_then_login_for_ann :
  is_logged_in (user_data empty_store_world) = None /\
  is_logged_in
    (user_data
       (check_email_and_login lower_ascii (says "ANN@example.COM")
          (get_email_and_register lower_ascii (says "Ann@Example.com") empty_store_world).2).2)
  = Some true.
Proof.
  split; [reflexivity|].
  pose proof (register_then_login lower_ascii (mkMessage ann "Ann@Example.com")
                (mkMessage ann "ANN@example.COM") empty_store_world ∅) as H.
  cbv zeta in H.
  destruct (check_email_and_login lower_ascii (MessageUpdate (mkMessage ann "ANN@example.COM"))
              (get_email_and_register lower_ascii
                 (MessageUpdate (mkMessage ann "Ann@Example.com")) empty_store_world).2)
    as [r w2] eqn:Hrun.
  unfold says. rewrite Hrun. cbn [snd].
  destruct H as (_ & Hflag & _).
  - reflexivity.
  - intros (st & k & d & Hst & Hk & _). injection Hst as <-.
    rewrite lookup_empty in Hk. discriminate Hk.
  - reflexivity.
  - vm_compute. reflexivity.
  - exact Hflag.
Defined.

Lemma physics_not_held : "Physics" ∉ subjects ann_profile.
Proof. intros H. apply list_elem_of_singleton in H. discriminate H. Qed.

Lemma remove_subject_effect_math :
  exists r w' d',
    button_handler (presses 0 "remove_Math") math_world = (Ok r, w') /\
    db w' = Some (<[caller_key (mkCallbackQuery ann "remove_Math" 0) := d']> ann_store) /\
    email d' = email ann_profile /\ telegram_username d' = telegram_username ann_profile /\
    ("Math" ∉ subjects d') /\
    (forall y, y <> "Math" -> (y ∈ subjects d' <-> y ∈ subjects ann_profile)).
Proof.
  apply (remove_subject_effect (mkCallbackQuery ann "remove_Math" 0) "Math" math_world
           ann_store ann_profile).
  - reflexivity.
  - reflexivity.
  - vm_compute. reflexivity.
Defined.

Lemma remove_absent_subject_physics :
  exists r w', button_handler (presses 0 "remove_Physics") math_world = (Ok r, w')
               /\ db w' = db math_world.
Proof.
  apply (remove_absent_subject (mkCallbackQuery ann "remove_Physics" 0) "Physics" math_world
           ann_store ann_profile).
  - reflexivity.
  - reflexivity.
  - vm_compute. reflexivity.
  - exact physics_not_held.
Defined.

Lemma add_then_remove_physics :
  exists r1 w1 r2 w2,
    button_handler (presses 0 "add_Physics") math_world = (Ok r1, w1) /\
    profile_subjects (db w1) ann = subjects ann_profile ++ ["Physics"] /\
    button_handler (presses 1 "remove_Physics") w1 = (Ok r2, w2) /\
    db w2 = db math_world.
Proof.
  apply (add_then_remove (mkCallbackQuery ann "add_Physics" 0)
           (mkCallbackQuery ann "remove_Physics" 1) "Physics" math_world ann_store ann_profile).
  - reflexivity.
  - reflexivity.
  - reflexivity.
  - reflexivity.
  - vm_compute. reflexivity.
  - exact physics_not_held.
Defined.

Lemma add_menu_offers_for_ann :
  exists body mk,
    add_subject_command (says "/addsubject") math_world_in
      = (Ok PNone, say math_world_in (SendMessage body mk)) /\
    (forall s, "add_" +:+ s ∈ markup_buttons mk
               <-> s ∈ AVAILABLE_SUBJECTS /\ s ∉ profile_subjects (db math_world_in) ann) /\
    (mk = MAIN_MENU_MARKUP
     <-> forall s, s ∈ AVAILABLE_SUBJECTS -> s ∈ profile_subjects (db math_world_in) ann).
Proof.
  exact (add_menu_offers (mkMessage ann "/addsubject") math_world_in eq_refl).
Defined.

Lemma add_menu_press_ict :
  exists s r w',
    s ∈ AVAILABLE_SUBJECTS /\ (s ∉ subjects ann_profile) /\
    button_handler (presses 0 "add_ICT") (add_subject_command (says "/addsubject") math_world_in).2
      = (Ok r, w') /\
    db w' = Some (<["7" := set_subjects ann_profile (subjects ann_profile ++ [s])]> ann_store).
Proof.
  apply (add_menu_press (mkMessage ann "/addsubject") math_world_in
           (mkCallbackQuery ann "add_ICT" 0) ann_store ann_profile).
  - reflexivity.
  - reflexivity.
  - vm_compute. reflexivity.
  - reflexivity.
  - vm_compute. left.
Defined.

Lemma my_subjects_press_math :
  cq_data (mkCallbackQuery ann "remove_Math" 0) = "n_" \/
  exists s r w',
    s ∈ subjects ann_profile /\
    button_handler (presses 0 "remove_Math")
      (my_subjects_command (says "/mysubjects") math_world_in).2 = (Ok r, w') /\
    db w' = Some (<["7" := set_subjects ann_profile (ArrayRemove [s] (subjects ann_profile))]>
                    ann_store) /\
    s ∉ profile_subjects (db w') ann.
Proof.
  apply (my_subjects_press (mkMessage ann "/mysubjects") math_world_in
           (mkCallbackQuery ann "remove_Math" 0) ann_store ann_profile).
  - reflexivity.
  - reflexivity.
  - vm_compute. reflexivity.
  - reflexivity.
  - vm_compute. right. left.
Defined.

Lemma quiz_menu_press_math :
  exists s r w',
    s ∈ profile_subjects (db math_world_in) ann /\
    button_handler (presses 0 "quiz_Math") (quiz_me_command (says "/quizme") math_world_in).2
      = (Ok r, w') /\
    db w' = db math_world_in /\ user_data w' = user_data math_world_in /\
    outbox w' = outbox (quiz_me_command (says "/quizme") math_world_in).2
                ++ [AnswerCallbackQuery;
                    EditMessageText 0 ("⏳ Generating a quiz for '" +:+ s +:+ "'... Please wait.")
                      NoMarkup;
                    SendMessage (quiz_text_of (ai_model math_world_in) s) MAIN_MENU_MARKUP;
                    EditMessageText 0 ("✅ Your quiz for '" +:+ s +:+ "' is ready!") NoMarkup].
Proof.
  apply (quiz_menu_press (mkMessage ann "/quizme") math_world_in
           (mkCallbackQuery ann "quiz_Math" 0)).
  - reflexivity.
  - vm_compute. left.
Defined.

Lemma profiles_are_kept_on_add :
  exists d',
    app_db (process_update lower_ascii this_bot tutoring_app (presses 0 "add_Physics"))
      ≫= (fun st => st !! "7") = Some d' /\
    ("7" <> py_str_int (caller (presses 0 "add_Physics")) -> d' = ann_profile) /\
    (email d' = email ann_profile
     \/ exists m, presses 0 "add_Physics" = MessageUpdate m /\ d' = new_profile lower_ascii m).
Proof.
  apply (profiles_are_kept lower_ascii this_bot tutoring_app (presses 0 "add_Physics") "7" ann_profile).
  vm_compute. reflexivity.
Defined.

(** Ann has registered and asked to log in. *)
Definition awaiting_login : App :=
  run_updates (initial_app None) [ says "/register"; says "Ann@Example.com"; says "/login" ].

Lemma awaiting_login_reachable : reachable lower_ascii this_bot None awaiting_login.
Proof. apply run_updates_reachable; [constructor | vm_compute; reflexivity]. Qed.

Lemma login_only_by_email_for_ann :
  exists m st d,
    says "ann@example.com" = MessageUpdate m /\ user_id (from_user m) = 7 /\
    app_db awaiting_login = Some st /\ st !! py_str_int 7 = Some d /\
    email d = lower_ascii (text m).
Proof.
  apply (login_only_by_email lower_ascii this_bot awaiting_login (says "ann@example.com") 7).
  - vm_compute. reflexivity.
  - vm_compute. reflexivity.
Defined.

(** Ann after the removal of Math, as in the trace above. *)
Lemma until_removed_reachable :
  reachable lower_ascii this_bot None (run_updates (initial_app None) until_removed).
Proof. apply run_updates_reachable; [constructor | vm_compute; reflexivity]. Qed.

Definition after_add : App :=
  run_updates (initial_app None)
    [ says "/register"; says "Ann@Example.com"; says "/login"; says "ann@example.com";
      says "➕ Add Subject"; presses 4 "add_Math" ].

Lemma after_add_reachable : reachable lower_ascii this_bot None after_add.
Proof. apply run_updates_reachable; [constructor | vm_compute; reflexivity]. Qed.

Lemma reachable_subjects_in_catalog_after_add :
  NoDup (subjects ann_profile) /\ forall s, s ∈ subjects ann_profile -> s ∈ AVAILABLE_SUBJECTS.
Proof.
  apply (reachable_subjects_in_catalog lower_ascii this_bot None after_add ann_store "7" ann_profile).
  - exact after_add_reachable.
  - vm_compute. reflexivity.
  - vm_compute. reflexivity.
Defined.

Lemma reachable_emails_unique_after_add :
  exists st, app_db after_add = Some st /\ emails_unique st.
Proof. exact (reachable_emails_unique lower_ascii this_bot None after_add after_add_reachable). Defined.

Lemma reachable_logged_in_registered_after_add :
  exists st d, app_db after_add = Some st /\ st !! py_str_int 7 = Some d.
Proof.
  apply (reachable_logged_in_registered lower_ascii this_bot None after_add 7 after_add_reachable).
  vm_compute. reflexivity.
Defined.

Lemma unrouted_callback_ignored_label :
  process_update lower_ascii this_bot tutoring_app (presses 0 "n_") = tutoring_app.
Proof.
  apply (unrouted_callback_ignored lower_ascii this_bot tutoring_app (mkCallbackQuery ann "n_" 0)).
  - reflexivity.
  - left. reflexivity.
Defined.

(** Ann has chosen Math and is about to ask her first question. *)
Definition asking_app : App :=
  {| app_db := Some ann_store; app_ai := None;
     app_user_data := {[ 7 := {| is_logged_in := Some true; tutor_subject := Some "Math";
                                 chat_session := None |} ]};
     app_chats := ∅; reg_conv := ∅; login_conv := ∅; tutor_conv := {[ 7 := T_ASK_QUESTION ]} |}.

Lemma logout_keeps_tutor_conversation_for_ann :
  app_user_data (process_update lower_ascii this_bot asking_app (says "/logout")) !! 7
    = Some empty_session /\
  tutor_conv (process_update lower_ascii this_bot asking_app (says "/logout")) !! 7
    = Some T_ASK_QUESTION /\
  select_handler this_bot (main_handlers lower_ascii)
    (process_update lower_ascii this_bot asking_app (says "/logout")) (says "What is a vector?")
    = Some (Some Tutor, start_ai_conversation).
Proof.
  apply (logout_keeps_tutor_conversation lower_ascii this_bot asking_app (mkMessage ann "/logout")
           (mkMessage ann "What is a vector?")).
  - vm_compute. reflexivity.
  - reflexivity.
  - vm_compute. reflexivity.
  - vm_compute. reflexivity.
  - vm_compute. reflexivity.
  - vm_compute. reflexivity.
Defined.

Definition registering_app : App := run_updates (initial_app None) [ says "/register" ].

Lemma cancel_ends_registration_for_ann :
  reg_conv (process_update lower_ascii this_bot registering_app (says "/cancel")) !! 7 = None /\
  app_db (process_update lower_ascii this_bot registering_app (says "/cancel")) = app_db registering_app.
Proof.
  destruct (cancel_ends_registration lower_ascii this_bot registering_app (mkMessage ann "/cancel"))
    as (Hreg & _ & _ & Hdb & _).
  - vm_compute. reflexivity.
  - vm_compute. reflexivity.
  - split; [exact Hreg | exact Hdb].
Defined.
